(** * The zap middlewares of [main.go]: [GinLogger] and [GinRecovery]

    A shallow embedding of the two gin middlewares of [src/main.go]
    ([GinLogger], lines 172-191; [GinRecovery], lines 194-238) and of the
    chain [mainDemo4] registers (line 159), together with the parts of the
    Go standard library, of gin and of zap that they call; then of the
    three logging demos ([mainDemo1] to [mainDemo3], lines 29-151) with
    the loggers they build and the requests they make.

    Go code runs in a monad that threads the per-request world and may end
    in a panic; state changes made before a panic stay, as they do in Go. *)

From Stdlib Require Import String Ascii List ZArith NArith Bool Lia.
From Stdlib Require Import DecimalString.
Import ListNotations.

Local Open Scope string_scope.
Local Open Scope Z_scope.

(** ** Package [strings] *)

Module strings.

(** The ASCII branch of [strings.ToLower]: [c += 'a' - 'A'] on the bytes
    ['A'..'Z'], every other byte kept.  Messages are taken to be ASCII,
    as those of the operating system's error table are. *)
Definition lower_byte (c : ascii) : ascii :=
  let n := N_of_ascii c in
  if ((65 <=? n) && (n <=? 90))%N then ascii_of_N (n + 32) else c.

Fixpoint ToLower (s : string) : string :=
  match s with
  | EmptyString => EmptyString
  | String c t => String (lower_byte c) (ToLower t)
  end.


Fixpoint HasPrefix (s prefix : string) {struct prefix} : bool :=
  match prefix, s with
  | EmptyString, _ => true
  | String _ _, EmptyString => false
  | String p prefix', String c s' => Ascii.eqb c p && HasPrefix s' prefix'
  end.

(** [strings.Index]: the byte offset of the first occurrence of [substr]
    in [s], or [-1]. *)
Fixpoint Index (s substr : string) : Z :=
  if HasPrefix s substr then 0
  else match s with
       | EmptyString => -1
       | String _ t => let i := Index t substr in
                       if i <? 0 then -1 else i + 1
       end.

(** [func Contains(s, substr string) bool { return Index(s, substr) >= 0 }] *)
Definition Contains (s substr : string) : bool := 0 <=? Index s substr.

End strings.

(** ** Error values

    The values of Go's interface type [error] that the classification in
    [GinRecovery] tells apart.  Pointers are non-nil: a [net.OpError] or
    [os.SyscallError] that reaches the middleware was built by the
    networking code, which fills its [Err]. *)

Inductive error : Type :=
| OpError (Op Net : string) (Source Addr : option string) (Err : error)
    (* net.OpError, by pointer *)
| SyscallError (Syscall : string) (Err : error)
    (* os.SyscallError, by pointer *)
| errorString (s : string).
    (* any other error, by the text of its Error() *)

(** The [Error()] methods of the standard library:
    [os.SyscallError]: [e.Syscall + ": " + e.Err.Error()];
    [net.OpError]: op, net, source and address, then [": "] and the cause. *)
Fixpoint Error (e : error) : string :=
  match e with
  | OpError op net source addr err =>
      let s := op in
      let s := if String.eqb net "" then s else s ++ " " ++ net in
      let s := match source with Some src => s ++ " " ++ src | None => s end in
      let s := match addr with
               | Some a => (match source with
                            | Some _ => s ++ "->"
                            | None => s ++ " "
                            end) ++ a
               | None => s
               end in
      s ++ ": " ++ Error err
  | SyscallError syscall err => syscall ++ ": " ++ Error err
  | errorString s => s
  end.

(** What [panic] was called with and [recover()] gives back: a value of
    type [interface{}].  [recover()] itself is an [option value], [None]
    being Go's [nil] when the goroutine is not panicking. *)
Inductive value : Type :=
| VErr (e : error)
| VStr (s : string)
| VInt (n : Z).

(** ** The classification of [GinRecovery] (lines 200-207) *)

Inductive Classification := BrokenConnection | Generic.

(** The local [brokenPipe] after lines 200-207: the two type assertions
    of [err] to [net.OpError] and of [ne.Err] to [os.SyscallError], then the two
    substring tests on the lowered [se.Error()]. *)
Definition brokenPipe (err : value) : bool :=
  match err with
  | VErr (OpError _ _ _ _ ne_Err) =>
      match ne_Err with
      | SyscallError _ _ as se =>
          strings.Contains (strings.ToLower (Error se)) "broken pipe"
          || strings.Contains (strings.ToLower (Error se))
               "connection reset by peer"
      | _ => false
      end
  | _ => false
  end.

Definition classify (err : value) : Classification :=
  if brokenPipe err then BrokenConnection else Generic.

(** *** The signature as the specification words it

    A message contains a pattern case-insensitively when some substring of
    it has the pattern's length and the pattern's letters up to case. *)

(** The letters in their capital and in their small form, in order. *)
Definition capitals : string := "ABCDEFGHIJKLMNOPQRSTUVWXYZ".
Definition smalls : string := "abcdefghijklmnopqrstuvwxyz".

Definition alphabet : list (ascii * ascii) :=
  combine (list_ascii_of_string capitals) (list_ascii_of_string smalls).

(** Two characters are the same letter when they are equal or are the
    capital and the small form of one letter of the alphabet. *)
Definition same_letter (x y : ascii) : Prop :=
  x = y \/ In (x, y) alphabet \/ In (y, x) alphabet.

Definition same_letterb (x y : ascii) : bool :=
  Ascii.eqb x y
  || existsb (fun p => Ascii.eqb (fst p) x && Ascii.eqb (snd p) y) alphabet
  || existsb (fun p => Ascii.eqb (fst p) y && Ascii.eqb (snd p) x) alphabet.

Fixpoint same_letters (a b : string) : Prop :=
  match a, b with
  | EmptyString, EmptyString => True
  | String x a', String y b' => same_letter x y /\ same_letters a' b'
  | _, _ => False
  end.

(** Every byte, for the checks that go through all of them. *)
Definition all_bytes : list ascii := map ascii_of_nat (seq 0 256).

Definition contains_any_case (msg pat : string) : Prop :=
  exists pre mid post, msg = pre ++ mid ++ post /\ same_letters mid pat.

(** The raised value is a network-operation error whose inner cause is a
    system call error whose message contains one of the two patterns. *)
Definition broken_connection_signature (err : value) : Prop :=
  exists op net source addr syscall cause,
    err = VErr (OpError op net source addr (SyscallError syscall cause)) /\
    (contains_any_case (Error (SyscallError syscall cause)) "broken pipe" \/
     contains_any_case (Error (SyscallError syscall cause))
       "connection reset by peer").



(** ** Packages [net/url] and [net/http] *)

Module url.
Record URL := { Path : string; RawQuery : string }.
End url.

Module http.

Definition Header := list (string * list string).

(** [Header.Get]: the first value stored under the key, or [""]. *)
Fixpoint Get (h : Header) (key : string) : string :=
  match h with
  | [] => ""
  | (k, vs) :: rest =>
      if String.eqb k key then match vs with v :: _ => v | [] => "" end
      else Get rest key
  end.

Record Request := {
  Method : string;
  URL : url.URL;
  Header_ : Header;
  RemoteAddr : string
}.

(** [func (r *Request) UserAgent() string] *)
Definition UserAgent (r : Request) : string := Get (Header_ r) "User-Agent".

Definition StatusOK : Z := 200.
Definition StatusInternalServerError : Z := 500.

(** What has gone out on the connection through the underlying
    [http.ResponseWriter]: status lines and body bytes, in order. *)
Inductive Sent := StatusLine (code : Z) | Body (data : string).

End http.

(** ** zap: fields and entries *)

Module zapcore.
Inductive Level :=
| DebugLevel | InfoLevel | WarnLevel | ErrorLevel
| DPanicLevel | PanicLevel | FatalLevel.

Definition Level_eqb (a b : Level) : bool :=
  match a, b with
  | DebugLevel, DebugLevel | InfoLevel, InfoLevel | WarnLevel, WarnLevel
  | ErrorLevel, ErrorLevel | DPanicLevel, DPanicLevel
  | PanicLevel, PanicLevel | FatalLevel, FatalLevel => true
  | _, _ => false
  end.

Inductive FieldValue :=
| IntValue (n : Z)
| StringValue (s : string)
| DurationValue (nanoseconds : Z)
| ErrorValue (e : error).

Record Field := { Key : string; Value : FieldValue }.

Record Entry := { Level_ : Level; Message : string; Fields : list Field }.
End zapcore.

Definition zap_Int (key : string) (n : Z) : zapcore.Field :=
  {| zapcore.Key := key; zapcore.Value := zapcore.IntValue n |}.
Definition zap_String (key val : string) : zapcore.Field :=
  {| zapcore.Key := key; zapcore.Value := zapcore.StringValue val |}.
Definition zap_Duration (key : string) (d : Z) : zapcore.Field :=
  {| zapcore.Key := key; zapcore.Value := zapcore.DurationValue d |}.

(** [zap.Any] picks the field constructor by the dynamic type. *)
Definition zap_Any (key : string) (v : value) : zapcore.Field :=
  match v with
  | VErr e => {| zapcore.Key := key; zapcore.Value := zapcore.ErrorValue e |}
  | VStr s => zap_String key s
  | VInt n => zap_Int key n
  end.

(** The value an entry carries under a key, if it has such a field. *)
Fixpoint field (key : string) (fs : list zapcore.Field)
  : option zapcore.FieldValue :=
  match fs with
  | [] => None
  | f :: rest =>
      if String.eqb (zapcore.Key f) key then Some (zapcore.Value f)
      else field key rest
  end.

(** ** gin: the response writer, the error list and the context *)

Module gin.

(** [type ErrorType uint64] and its flags. *)
Definition ErrorTypeBind : Z := Z.shiftl 1 63.
Definition ErrorTypeRender : Z := Z.shiftl 1 62.
Definition ErrorTypePrivate : Z := Z.shiftl 1 0.
Definition ErrorTypePublic : Z := Z.shiftl 1 1.
Definition ErrorTypeAny : Z := Z.shiftl 1 64 - 1.

Record Error := { Err : error; Type_ : Z; Meta : option value }.

(** [func (msg *Error) IsType(flags ErrorType) bool] *)
Definition IsType (msg : Error) (flags : Z) : bool :=
  0 <? Z.land (Type_ msg) flags.

(** [func (a errorMsgs) ByType(typ ErrorType) errorMsgs] *)
Definition ByType (a : list Error) (typ : Z) : list Error :=
  match a with
  | [] => []
  | _ => if typ =? ErrorTypeAny then a
         else filter (fun msg => IsType msg typ) a
  end.

Definition noWritten : Z := -1.
Definition defaultStatus : Z := http.StatusOK.

Record responseWriter := {
  ResponseWriter : list http.Sent;
  size : Z;
  status : Z
}.

Definition Written (w : responseWriter) : bool := negb (size w =? noWritten).

Definition Status (w : responseWriter) : Z := status w.

(** Modelled from the spec: the writer's [setStatus(code)] of section 6,
    which is gin's [WriteHeader]: a positive code other than the current
    one becomes the status (gin only warns when the header has gone out). *)
Definition WriteHeader (code : Z) (w : responseWriter) : responseWriter :=
  if (0 <? code) && negb (status w =? code)
  then {| ResponseWriter := ResponseWriter w; size := size w; status := code |}
  else w.

(** gin's [WriteHeaderNow]: the status line goes out once. *)
Definition WriteHeaderNow (w : responseWriter) : responseWriter :=
  if Written w then w
  else {| ResponseWriter := ResponseWriter w ++ [http.StatusLine (status w)];
          size := 0;
          status := status w |}.

(** [const abortIndex int8 = math.MaxInt8 >> 1] *)
Definition abortIndex : Z := Z.shiftr 127 1.

(** The fields of [gin.Context] the two middlewares reach.  [index] is
    unexported: outside gin it changes through [Next] and [Abort] only. *)
Record Context := {
  Request : http.Request;
  Writer : responseWriter;
  Errors : list Error;
  index : Z
}.

End gin.

(** [fmt]'s [%02d] on a non-negative number and [%v] on a value. *)
Definition decimal (n : Z) : string := NilZero.string_of_int (Z.to_int n).

Definition fmt_02d (n : Z) : string :=
  if n <? 10 then "0" ++ decimal n else decimal n.

Definition fmt_v (v : value) : string :=
  match v with
  | VErr e => Error e
  | VStr s => s
  | VInt n => decimal n
  end.

Definition newline : string := String (ascii_of_nat 10) "".

(** [func (a errorMsgs) String() string]: one line
    ["Error #%02d: %s\n"] per message, [i] counting from zero, and a line
    ["     Meta: %v\n"] when the message has a [Meta]. *)
Fixpoint errorMsgs_lines (i : Z) (a : list gin.Error) : string :=
  match a with
  | [] => ""
  | msg :: rest =>
      "Error #" ++ fmt_02d (i + 1) ++ ": " ++ Error (gin.Err msg) ++ newline
      ++ match gin.Meta msg with
         | Some m => "     Meta: " ++ fmt_v m ++ newline
         | None => ""
         end
      ++ errorMsgs_lines (i + 1) rest
  end.

Definition errorMsgs_String (a : list gin.Error) : string :=
  match a with
  | [] => ""
  | _ => errorMsgs_lines 0 a
  end.

(** ** The world of one request and the monad of Go code *)

(** [logger]: the entries handed to the zap logger so far, oldest first.
    [clock]: the reading of the monotonic clock, in nanoseconds. *)
Record World := {
  c : gin.Context;
  logger : list zapcore.Entry;
  clock : Z
}.

(** How a call ends: it returns, it panics with a value, or it has not
    come back within the steps allowed (a handler that hangs). *)
Inductive Outcome (A : Type) :=
| Returns (a : A)
| Panics (v : value)
| Hangs.
Arguments Returns {A} a.
Arguments Panics {A} v.
Arguments Hangs {A}.

Definition Go (A : Type) : Type := World -> Outcome A * World.

Definition ret {A} (a : A) : Go A := fun w => (Returns a, w).

Definition bind {A B} (m : Go A) (k : A -> Go B) : Go B :=
  fun w => match m w with
           | (Returns a, w') => k a w'
           | (Panics v, w') => (Panics v, w')
           | (Hangs, w') => (Hangs, w')
           end.

Definition panic {A} (v : value) : Go A := fun w => (Panics v, w).

Declare Scope go_scope.
Delimit Scope go_scope with go.
Notation "x <- m ;; k" := (bind m (fun x => k))
  (at level 61, m at next level, right associativity) : go_scope.
Notation "m ;; k" := (bind m (fun _ => k))
  (at level 61, right associativity) : go_scope.
Local Open Scope go_scope.

(** [defer func() { if err := recover(); err != nil { ... } }()] around a
    body: the deferred function runs when the body returns and when it
    panics, and is handed what [recover()] gives it: [None] after a return,
    the raised value after a panic, which [recover()] thereby stops. *)
Definition defer_recover (deferred : option value -> Go unit)
    (body : Go unit) : Go unit :=
  fun w => match body w with
           | (Returns tt, w') => deferred None w'
           | (Panics v, w') => deferred (Some v) w'
           | (Hangs, w') => (Hangs, w')
           end.

Definition get_c : Go gin.Context := fun w => (Returns (c w), w).

Definition set_c (c' : gin.Context) : Go unit :=
  fun w => (Returns tt, {| c := c'; logger := logger w; clock := clock w |}).

(** [time.Now()] and [time.Since(start)] on the monotonic reading. *)
Definition time_Now : Go Z := fun w => (Returns (clock w), w).
Definition time_Since (start : Z) : Go Z :=
  fun w => (Returns (clock w - start), w).

Definition emit (e : zapcore.Entry) : Go unit :=
  fun w => (Returns tt,
            {| c := c w; logger := logger w ++ [e]; clock := clock w |}).

Definition logger_Info (msg : string) (fields : list zapcore.Field) : Go unit :=
  emit {| zapcore.Level_ := zapcore.InfoLevel;
          zapcore.Message := msg; zapcore.Fields := fields |}.

Definition logger_Error (msg : string) (fields : list zapcore.Field) : Go unit :=
  emit {| zapcore.Level_ := zapcore.ErrorLevel;
          zapcore.Message := msg; zapcore.Fields := fields |}.

(** *** Methods of [*gin.Context] *)

Definition set_index (i : Z) (ctx : gin.Context) : gin.Context :=
  {| gin.Request := gin.Request ctx; gin.Writer := gin.Writer ctx;
     gin.Errors := gin.Errors ctx; gin.index := i |}.

Definition set_Writer (wr : gin.responseWriter) (ctx : gin.Context)
  : gin.Context :=
  {| gin.Request := gin.Request ctx; gin.Writer := wr;
     gin.Errors := gin.Errors ctx; gin.index := gin.index ctx |}.

Definition set_Errors (es : list gin.Error) (ctx : gin.Context)
  : gin.Context :=
  {| gin.Request := gin.Request ctx; gin.Writer := gin.Writer ctx;
     gin.Errors := es; gin.index := gin.index ctx |}.

(** [func (c *Context) Abort() { c.index = abortIndex }] *)
Definition c_Abort : Go unit :=
  ctx <- get_c ;; set_c (set_index gin.abortIndex ctx).

(** [func (c *Context) AbortWithStatus(code int)]:
    [c.Status(code); c.Writer.WriteHeaderNow(); c.Abort()] *)
Definition c_AbortWithStatus (code : Z) : Go unit :=
  ctx <- get_c ;;
  set_c (set_Writer (gin.WriteHeader code (gin.Writer ctx)) ctx) ;;
  ctx <- get_c ;;
  set_c (set_Writer (gin.WriteHeaderNow (gin.Writer ctx)) ctx) ;;
  c_Abort.

(** [func (c *Context) Error(err error) *Error]: an error that is not a
    [gin.Error] already is appended as a private one. *)
Definition c_Error (err : error) : Go unit :=
  ctx <- get_c ;;
  set_c (set_Errors
           (gin.Errors ctx ++ [{| gin.Err := err;
                                  gin.Type_ := gin.ErrorTypePrivate;
                                  gin.Meta := None |}]) ctx).

(** [func (c *Context) String(code int, format string, ...)], as the
    handler of [GET /hello] calls it: the status is set, the status line
    goes out if it has not yet, then the text. *)
Definition c_String (code : Z) (text : string) : Go unit :=
  ctx <- get_c ;;
  let wr := gin.WriteHeaderNow (gin.WriteHeader code (gin.Writer ctx)) in
  set_c (set_Writer
           {| gin.ResponseWriter := gin.ResponseWriter wr ++ [http.Body text];
              gin.size := gin.size wr + Z.of_nat (String.length text);
              gin.status := gin.status wr |} ctx).

(** The single-value type assertion [err.(error)]: it panics with a
    runtime error when the value is not an error. *)
Definition assert_error (err : value) : Go error :=
  match err with
  | VErr e => ret e
  | _ => panic (VErr (errorString
                        "interface conversion: interface {} is not error"))
  end.

(** What [httputil.DumpRequest] returns: the dump, or an error together
    with nil bytes. *)
Inductive dumped := Dump (b : string) | DumpFailed (err : error).

(** [httpRequest, _ := ...]: the first result, the error dropped. *)
Definition bytes_of (d : dumped) : string :=
  match d with
  | Dump b => b
  | DumpFailed _ => ""
  end.

(** gin's [HandlerFunc], a function of the context; the argument stands for what
    [c.Next()] does when the handler calls it. *)
Definition HandlerFunc : Type := Go unit -> Go unit.

(** [int8(x)]: the wrap-around of a conversion to a signed byte. *)
Definition int8 (x : Z) : Z := (x + 128) mod 256 - 128.

Definition index_out_of_range : value :=
  VErr (errorString "runtime error: index out of range").

(** Modelled from the spec: the host's "run this interceptor, then invoke
    the next in chain" of section 6, which is gin's
    [for c.index < int8(len(c.handlers)) { c.handlers[c.index](c); c.index++ }];
    [steps] bounds the iterations. *)
Fixpoint run_handlers (handlers : list HandlerFunc) (c_Next : Go unit)
    (steps : nat) : Go unit :=
  match steps with
  | O => fun w => (Hangs, w)
  | S steps' =>
      ctx <- get_c ;;
      if gin.index ctx <? int8 (Z.of_nat (length handlers)) then
        match (if gin.index ctx <? 0 then None
               else nth_error handlers (Z.to_nat (gin.index ctx))) with
        | Some handler =>
            handler c_Next ;;
            ctx <- get_c ;;
            set_c (set_index (int8 (gin.index ctx + 1)) ctx) ;;
            run_handlers handlers c_Next steps'
        | None => panic index_out_of_range
        end
      else ret tt
  end.

(** Modelled from the spec: gin's [func (c *Context) Next()]: [c.index++],
    then the loop above; [fuel] bounds the depth of the calls of [Next]
    from inside handlers and the iterations of each loop. *)
Fixpoint c_Next (fuel : nat) (handlers : list HandlerFunc) : Go unit :=
  match fuel with
  | O => fun w => (Hangs, w)
  | S fuel' =>
      ctx <- get_c ;;
      set_c (set_index (int8 (gin.index ctx + 1)) ctx) ;;
      run_handlers handlers (c_Next fuel' handlers) fuel'
  end.

(** A route's own handler, as the one of [GET /hello] is: any Go code on
    the request's world that does not call [c.Next()].  [index] being
    unexported, the handler leaves it as it was or, by [c.Abort()], at
    [abortIndex]. *)
Definition endpoint (handler : Go unit) : HandlerFunc :=
  fun _ w =>
    let (r, w') := handler w in
    (r, {| c := set_index (if gin.index (c w') =? gin.abortIndex
                           then gin.abortIndex else gin.index (c w)) (c w');
           logger := logger w'; clock := clock w' |}).

(** ** The two middlewares *)

Section Middleware.

(** [c.ClientIP()], which gin computes from the request's headers and
    remote address. *)
Variable ClientIP : http.Request -> string.

(** [httputil.DumpRequest(req, body)]. *)
Variable DumpRequest : http.Request -> bool -> dumped.

(** The text of the goroutine's stack after the word that opens it. *)
Variable traceback : World -> string.

Definition c_ClientIP : Go string :=
  fun w => (Returns (ClientIP (gin.Request (c w))), w).

Definition httputil_DumpRequest (req : http.Request) (body : bool)
  : Go dumped := ret (DumpRequest req body).

(** [debug.Stack()]: the runtime's trace opens with
    ["goroutine N [running]:"]. *)
Definition debug_Stack : Go string :=
  fun w => (Returns ("goroutine " ++ traceback w), w).

(** [GinLogger] (lines 172-191), [logger] being the world's. *)
Definition GinLogger : HandlerFunc := fun c_Next =>
  start <- time_Now ;;
  ctx <- get_c ;;
  let path := url.Path (http.URL (gin.Request ctx)) in
  let query := url.RawQuery (http.URL (gin.Request ctx)) in
  c_Next ;;

  cost <- time_Since start ;;
  ctx <- get_c ;;
  ip <- c_ClientIP ;;
  logger_Info path
    [ zap_Int "status" (gin.Status (gin.Writer ctx));
      zap_String "method" (http.Method (gin.Request ctx));
      zap_String "path" path;
      zap_String "query" query;
      zap_String "ip" ip;
      zap_String "user-agent" (http.UserAgent (gin.Request ctx));
      zap_String "errors"
        (errorMsgs_String (gin.ByType (gin.Errors ctx) gin.ErrorTypePrivate));
      zap_Duration "cost" cost ].

(** [GinRecovery] (lines 194-238). *)
Definition GinRecovery (stack : bool) : HandlerFunc := fun c_Next =>
  defer_recover (fun recovered =>
    match recovered with
    | None => ret tt
    | Some err =>
        ctx <- get_c ;;
        d <- httputil_DumpRequest (gin.Request ctx) false ;;
        let httpRequest := bytes_of d in
        if brokenPipe err then
          logger_Error (url.Path (http.URL (gin.Request ctx)))
            [ zap_Any "error" err;
              zap_String "request" httpRequest ] ;;
          e <- assert_error err ;;
          c_Error e ;;
          c_Abort
        else
          (if stack then
             trace <- debug_Stack ;;
             logger_Error "[Recovery from panic]"
               [ zap_Any "error" err;
                 zap_String "request" httpRequest;
                 zap_String "stack" trace ]
           else
             logger_Error "[Recovery from panic]"
               [ zap_Any "error" err;
                 zap_String "request" httpRequest ]) ;;
          c_AbortWithStatus http.StatusInternalServerError
    end) c_Next.

(** [mainDemo4] (lines 155-164): [r.Use(GinLogger(logger),
    GinRecovery(logger, true))], then a route; the chain that serves the
    route is the two middlewares in that order, then the route's handler. *)
Definition mainDemo4 (handler : Go unit) : list HandlerFunc :=
  [GinLogger; GinRecovery true] ++ [endpoint handler].

(** The handler of [GET /hello] (lines 160-162). *)
Definition hello : Go unit := c_String http.StatusOK "hello!".

End Middleware.

(** ** Vocabulary of the statements *)

(** The world as a handler finds it when the chain has reached position
    [i]. *)
Definition with_index (i : Z) (w : World) : World :=
  {| c := set_index i (c w); logger := logger w; clock := clock w |}.

(** The entries of a level among a run of entries. *)
Definition count_level (l : zapcore.Level) (es : list zapcore.Entry) : nat :=
  length (filter (fun e => zapcore.Level_eqb (zapcore.Level_ e) l) es).

(** The [Unwrap()] methods of the standard library: the cause an error
    wraps. *)
Definition Unwrap (e : error) : option error :=
  match e with
  | OpError _ _ _ _ err => Some err
  | SyscallError _ err => Some err
  | errorString _ => None
  end.

(** The entry [GinLogger] emits: [path], [query] and [start] are those
    of the world it was entered in, the rest is read on the world the
    rest of the chain left. *)
Definition request_completed (ClientIP : http.Request -> string)
    (w w1 : World) : zapcore.Entry :=
  {| zapcore.Level_ := zapcore.InfoLevel;
     zapcore.Message := url.Path (http.URL (gin.Request (c w)));
     zapcore.Fields :=
       [ zap_Int "status" (gin.Status (gin.Writer (c w1)));
         zap_String "method" (http.Method (gin.Request (c w1)));
         zap_String "path" (url.Path (http.URL (gin.Request (c w))));
         zap_String "query" (url.RawQuery (http.URL (gin.Request (c w))));
         zap_String "ip" (ClientIP (gin.Request (c w1)));
         zap_String "user-agent" (http.UserAgent (gin.Request (c w1)));
         zap_String "errors"
           (errorMsgs_String
              (gin.ByType (gin.Errors (c w1)) gin.ErrorTypePrivate));
         zap_Duration "cost" (clock w1 - clock w) ] |}.

(** The position the route's handler leaves: its own, or [abortIndex]. *)
Definition left_at (i : Z) (w1 : World) : Z :=
  if gin.index (c w1) =? gin.abortIndex then gin.abortIndex else i.

(** The world after [GinLogger], [w] being the one it was entered in and
    [w1] the one the rest of the chain left. *)
Definition logged (ClientIP : http.Request -> string) (w w1 : World) : World :=
  {| c := c w1;
     logger := logger w1 ++ [request_completed ClientIP w w1];
     clock := clock w1 |}.

(** The entry of a Generic fault and the world after its recovery, [w1]
    being the world the fault left. *)
Definition generic_entry (DumpRequest : http.Request -> bool -> dumped)
    (traceback : World -> string) (stack : bool) (err : value) (w1 : World)
  : zapcore.Entry :=
  {| zapcore.Level_ := zapcore.ErrorLevel;
     zapcore.Message := "[Recovery from panic]";
     zapcore.Fields :=
       [zap_Any "error" err;
        zap_String "request" (bytes_of (DumpRequest (gin.Request (c w1)) false))]
       ++ (if stack then [zap_String "stack" ("goroutine " ++ traceback w1)]
           else []) |}.

Definition after_generic (DumpRequest : http.Request -> bool -> dumped)
    (traceback : World -> string) (stack : bool) (err : value) (w1 : World)
  : World :=
  {| c := set_index gin.abortIndex
            (set_Writer
               (gin.WriteHeaderNow
                  (gin.WriteHeader http.StatusInternalServerError
                     (gin.Writer (c w1)))) (c w1));
     logger := logger w1 ++ [generic_entry DumpRequest traceback stack err w1];
     clock := clock w1 |}.

(** The entry of a BrokenConnection fault and the world after its
    recovery. *)
Definition broken_entry (DumpRequest : http.Request -> bool -> dumped)
    (e : error) (w1 : World) : zapcore.Entry :=
  {| zapcore.Level_ := zapcore.ErrorLevel;
     zapcore.Message := url.Path (http.URL (gin.Request (c w1)));
     zapcore.Fields :=
       [zap_Any "error" (VErr e);
        zap_String "request"
          (bytes_of (DumpRequest (gin.Request (c w1)) false))] |}.

Definition after_broken (DumpRequest : http.Request -> bool -> dumped)
    (e : error) (w1 : World) : World :=
  {| c := set_index gin.abortIndex
            (set_Errors
               (gin.Errors (c w1)
                ++ [{| gin.Err := e; gin.Type_ := gin.ErrorTypePrivate;
                       gin.Meta := None |}]) (c w1));
     logger := logger w1 ++ [broken_entry DumpRequest e w1];
     clock := clock w1 |}.

(** The world [GinRecovery] finds when the route's handler, entered at
    position 2, has panicked. *)
Definition faulted (w1 : World) : World := with_index (left_at 2 w1) w1.

(** The fault's cause, as the standard library unwraps it, has a message
    that contains the pattern in some letter case. *)
Definition cause_message_contains (err : value) (pat : string) : Prop :=
  exists e cause,
    err = VErr e /\ Unwrap e = Some cause /\
    contains_any_case (Error cause) pat.

(** ** Sample requests, handlers and collaborators *)

Definition sample_request : http.Request :=
  {| http.Method := "GET";
     http.URL := {| url.Path := "/hello"; url.RawQuery := "name=zap" |};
     http.Header_ := [("User-Agent", ["curl/8.0"])];
     http.RemoteAddr := "192.0.2.1:4711" |}.

(** The context as gin's [reset] hands it to the chain. *)
Definition fresh (req : http.Request) : gin.Context :=
  {| gin.Request := req;
     gin.Writer := {| gin.ResponseWriter := []; gin.size := gin.noWritten;
                      gin.status := gin.defaultStatus |};
     gin.Errors := [];
     gin.index := -1 |}.

Definition sample_world : World :=
  {| c := fresh sample_request; logger := []; clock := 1000 |}.

Definition remote_addr (req : http.Request) : string := http.RemoteAddr req.

Definition request_line (req : http.Request) (body : bool) : dumped :=
  Dump (http.Method req ++ " " ++ url.Path (http.URL req) ++ " HTTP/1.1").

Definition dump_fails (req : http.Request) (body : bool) : dumped :=
  DumpFailed (errorString "unexpected EOF").

Definition one_goroutine (w : World) : string := "1 [running]:".

(** A handler that takes [d] nanoseconds. *)
Definition sleep (d : Z) : Go unit :=
  fun w => (Returns tt, {| c := c w; logger := logger w; clock := clock w + d |}).

(** A handler that rewrites the request before it answers, as a handler
    may: the context holds the request by pointer. *)
Definition reroute : Go unit :=
  ctx <- get_c ;;
  set_c {| gin.Request :=
             {| http.Method := "POST";
                http.URL := {| url.Path := "/other"; url.RawQuery := "" |};
                http.Header_ := http.Header_ (gin.Request ctx);
                http.RemoteAddr := http.RemoteAddr (gin.Request ctx) |};
           gin.Writer := gin.Writer ctx;
           gin.Errors := gin.Errors ctx;
           gin.index := gin.index ctx |} ;;
  sleep 7 ;;
  c_String http.StatusOK "hello!".

(** [panic("boom")] *)
Definition boom : Go unit := sleep 250 ;; panic (VStr "boom").

(** A write on a connection the peer has closed. *)
Definition write_broken_pipe : value :=
  VErr (OpError "write" "tcp" None (Some "192.0.2.1:4711")
          (SyscallError "write" (errorString "Broken pipe"))).

(** A network-operation error whose cause is not a system call error. *)
Definition write_plain_broken_pipe : value :=
  VErr (OpError "write" "tcp" None None (errorString "broken pipe")).

(** Handlers that panic with the one and with the other. *)
Definition write_fails : Go unit := panic write_broken_pipe.
Definition write_fails_plain : Go unit := panic write_plain_broken_pipe.

(** GinLogger's post-processing is skipped in a run of the chain of
    [mainDemo4]: the run adds no info entry. *)
Definition post_processing_skipped (ClientIP : http.Request -> string)
    (DumpRequest : http.Request -> bool -> dumped)
    (traceback : World -> string) (handler : Go unit) (w : World) : Prop :=
  forall r w2,
    c_Next 5 (mainDemo4 ClientIP DumpRequest traceback handler) w = (r, w2) ->
    count_level zapcore.InfoLevel (logger w2)
    = count_level zapcore.InfoLevel (logger w).

(** The handler that stands first in a chain holds a recovery boundary:
    a panic of the rest of the chain does not pass it. *)
Definition outermost_recovers (handlers : list HandlerFunc) (w : World)
  : Prop :=
  match handlers with
  | outer :: _ => forall v, fst (outer (panic v) w) <> Panics v
  | [] => False
  end.

(** The body bytes among what has gone out. *)
Definition body_sent (out : list http.Sent) : list http.Sent :=
  filter (fun s => match s with http.Body _ => true | _ => false end) out.

(** ** The loggers the demos build (lines 27-151) *)

(** zapcore's levels are numbers, [DebugLevel = -1] to [FatalLevel = 5];
    a core with threshold [enab] takes an entry of level [lvl] when
    [lvl >= enab]. *)
Definition Level_rank (l : zapcore.Level) : Z :=
  match l with
  | zapcore.DebugLevel => -1
  | zapcore.InfoLevel => 0
  | zapcore.WarnLevel => 1
  | zapcore.ErrorLevel => 2
  | zapcore.DPanicLevel => 3
  | zapcore.PanicLevel => 4
  | zapcore.FatalLevel => 5
  end.

Definition Enabled (enab lvl : zapcore.Level) : bool :=
  Level_rank enab <=? Level_rank lvl.

Module lumberjack.
(** [lumberjack.Logger], by the fields [getLogWriter] sets. *)
Record Logger := {
  Filename : string;
  MaxSize : Z;
  MaxBackups : Z;
  MaxAge : Z;
  Compress : bool
}.
End lumberjack.

(** Where a core writes: standard error, or [zapcore.AddSync] of a
    lumberjack logger. *)
Inductive WriteSyncer := Stderr | AddSync (w : lumberjack.Logger).

Inductive TimeEncoder := EpochTimeEncoder | ISO8601TimeEncoder.
Inductive LevelEncoder := LowercaseLevelEncoder | CapitalLevelEncoder.

Record EncoderConfig := {
  EncodeTime : TimeEncoder;
  EncodeLevel : LevelEncoder
}.

Definition NewProductionEncoderConfig : EncoderConfig :=
  {| EncodeTime := EpochTimeEncoder; EncodeLevel := LowercaseLevelEncoder |}.

Inductive Encoder :=
| NewJSONEncoder (cfg : EncoderConfig)
| NewConsoleEncoder (cfg : EncoderConfig).

(** A [zap.Logger]: its core (encoder, writer, threshold), the sampler
    the core sits behind, if any, and the caller option.  A sampler keeps
    counts, so it is named by its place in the process's store: loggers
    that share a core share the sampler.  A [zap.SugaredLogger] is its
    base logger. *)
Record zapLogger := {
  Enc : Encoder;
  Out : WriteSyncer;
  Enab : zapcore.Level;
  Sampling : option nat;
  Caller : bool
}.

(** [zap.New(zapcore.NewCore(enc, ws, enab), zap.AddCaller())] *)
Definition zap_New_AddCaller (enc : Encoder) (ws : WriteSyncer)
    (enab : zapcore.Level) : zapLogger :=
  {| Enc := enc; Out := ws; Enab := enab; Sampling := None; Caller := true |}.

(** The logger [zap.NewProduction()] builds: JSON on standard error,
    [InfoLevel] and above, with the caller, behind a sampler of its own
    ([Initial: 100, Thereafter: 100]), here the one named [sampler]. *)
Definition zap_NewProduction (sampler : nat) : zapLogger :=
  {| Enc := NewJSONEncoder NewProductionEncoderConfig; Out := Stderr;
     Enab := zapcore.InfoLevel; Sampling := Some sampler; Caller := true |}.

(** The sampler's [first]: the entries of one level and message it lets
    through in a tick before it starts to drop. *)
Definition sampler_first : nat := 100.

(** [getEncoder] (lines 120-132). *)
Definition getEncoder : Encoder :=
  let encoderConfig := NewProductionEncoderConfig in
  let encoderConfig := {| EncodeTime := ISO8601TimeEncoder;
                          EncodeLevel := EncodeLevel encoderConfig |} in
  let encoderConfig := {| EncodeTime := EncodeTime encoderConfig;
                          EncodeLevel := CapitalLevelEncoder |} in
  NewConsoleEncoder encoderConfig.

(** [getLogWriter] (lines 142-151). *)
Definition getLogWriter : WriteSyncer :=
  let lumberJackLogger :=
    {| lumberjack.Filename := "./test.log";
       lumberjack.MaxSize := 1;
       lumberjack.MaxBackups := 5;
       lumberjack.MaxAge := 30;
       lumberjack.Compress := false |} in
  AddSync lumberJackLogger.

(** ** The process of the demos *)

(** What a run of a demo does outside itself: an entry that has passed a
    logger's threshold goes to the logger's core and writer, and a writer
    is synced. *)
Inductive Event :=
| Logged (ws : WriteSyncer) (e : zapcore.Entry)
| Synced (ws : WriteSyncer).

(** The package variables [logger] (line 27) and [sugarLogger] (line 65),
    [None] being the nil pointer they start as; the events so far, oldest
    first; the response bodies that are open.  Then the samplers: how
    many entries each has been handed since it was built, the name the
    next one gets, and what a sampler that has been handed [sampler_first]
    entries or more decides, which turns on the ticks of the wall clock
    and on the hash of the message and is taken as given. *)
Record Process := {
  var_logger : option zapLogger;
  var_sugarLogger : option zapLogger;
  events : list Event;
  open_bodies : nat;
  handed : nat -> nat;
  next_sampler : nat;
  sampler_keeps : nat -> nat -> zapcore.Entry -> bool
}.

Definition set_logger (l : option zapLogger) (s : Process) : Process :=
  {| var_logger := l; var_sugarLogger := var_sugarLogger s;
     events := events s; open_bodies := open_bodies s;
     handed := handed s; next_sampler := next_sampler s;
     sampler_keeps := sampler_keeps s |}.

Definition set_sugarLogger (l : option zapLogger) (s : Process) : Process :=
  {| var_logger := var_logger s; var_sugarLogger := l;
     events := events s; open_bodies := open_bodies s;
     handed := handed s; next_sampler := next_sampler s;
     sampler_keeps := sampler_keeps s |}.

Definition set_events (evs : list Event) (s : Process) : Process :=
  {| var_logger := var_logger s; var_sugarLogger := var_sugarLogger s;
     events := evs; open_bodies := open_bodies s;
     handed := handed s; next_sampler := next_sampler s;
     sampler_keeps := sampler_keeps s |}.

Definition set_open_bodies (n : nat) (s : Process) : Process :=
  {| var_logger := var_logger s; var_sugarLogger := var_sugarLogger s;
     events := events s; open_bodies := n;
     handed := handed s; next_sampler := next_sampler s;
     sampler_keeps := sampler_keeps s |}.

Definition set_handed (h : nat -> nat) (s : Process) : Process :=
  {| var_logger := var_logger s; var_sugarLogger := var_sugarLogger s;
     events := events s; open_bodies := open_bodies s;
     handed := h; next_sampler := next_sampler s;
     sampler_keeps := sampler_keeps s |}.

(** A sampler is built: it gets the next name and has been handed
    nothing. *)
Definition new_sampler (s : Process) : nat * Process :=
  let id := next_sampler s in
  (id,
   {| var_logger := var_logger s; var_sugarLogger := var_sugarLogger s;
      events := events s; open_bodies := open_bodies s;
      handed := fun j => if Nat.eqb j id then 0%nat else handed s j;
      next_sampler := S id;
      sampler_keeps := sampler_keeps s |}).

Definition Prog (A : Type) : Type := Process -> Outcome A * Process.

Definition pret {A} (a : A) : Prog A := fun s => (Returns a, s).

Definition pbind {A B} (m : Prog A) (k : A -> Prog B) : Prog B :=
  fun s => match m s with
           | (Returns a, s') => k a s'
           | (Panics v, s') => (Panics v, s')
           | (Hangs, s') => (Hangs, s')
           end.

Declare Scope prog_scope.
Delimit Scope prog_scope with prog.
Notation "x <- m ;; k" := (pbind m (fun x => k))
  (at level 61, m at next level, right associativity) : prog_scope.
Notation "m ;; k" := (pbind m (fun _ => k))
  (at level 61, right associativity) : prog_scope.

(** [defer f()] around a body without [recover]: the deferred call runs
    when the body returns and when it panics; a panic of the body goes on
    after it, a panic of the deferred call replaces it. *)
Definition defer_call (deferred : Prog unit) (body : Prog unit) : Prog unit :=
  fun s => match body s with
           | (Returns tt, s') => deferred s'
           | (Panics v, s') =>
               match deferred s' with
               | (Returns tt, s'') => (Panics v, s'')
               | other => other
               end
           | (Hangs, s') => (Hangs, s')
           end.

Definition nil_dereference : value :=
  VErr (errorString
          "runtime error: invalid memory address or nil pointer dereference").

(** A method call through a pointer that may be nil. *)
Definition deref {A} (p : option A) : Prog A :=
  fun s => match p with
           | Some a => (Returns a, s)
           | None => (Panics nil_dereference, s)
           end.

Definition read_logger : Prog (option zapLogger) :=
  fun s => (Returns (var_logger s), s).

Definition read_sugarLogger : Prog (option zapLogger) :=
  fun s => (Returns (var_sugarLogger s), s).

Definition happen (ev : Event) : Prog unit :=
  fun s => (Returns tt, set_events (events s ++ [ev]) s).

(** The sampler's [Check] on an entry of an enabled level: the entry is
    counted; it goes on to the core while the sampler has been handed
    fewer than [sampler_first] entries (no count of one level and message
    can then have passed [first]), and after that as [sampler_keeps]
    has it. *)
Definition sampler_Check (sampler : nat) (ws : WriteSyncer)
    (e : zapcore.Entry) : Prog unit :=
  fun s =>
    let n := handed s sampler in
    let s' := set_handed
                (fun j => if Nat.eqb j sampler then (handed s j + 1)%nat
                          else handed s j) s in
    if (n <? sampler_first)%nat || sampler_keeps s sampler n e
    then happen (Logged ws e) s'
    else (Returns tt, s').

(** [Debug], [Info] and [Error] of a logger and of its sugar: an entry
    of a level that is not enabled is dropped; one of an enabled level
    goes to the core, through the sampler when the core has one. *)
Definition log_at (lvl : zapcore.Level) (l : option zapLogger)
    (msg : string) (fields : list zapcore.Field) : Prog unit :=
  (log <- deref l ;;
   let e := {| zapcore.Level_ := lvl; zapcore.Message := msg;
               zapcore.Fields := fields |} in
   if Enabled (Enab log) lvl
   then match Sampling log with
        | Some sampler => sampler_Check sampler (Out log) e
        | None => happen (Logged (Out log) e)
        end
   else pret tt)%prog.

(** [Sync] of a logger and of its sugar. *)
Definition Sync (l : option zapLogger) : Prog unit :=
  (log <- deref l ;; happen (Synced (Out log)))%prog.

(** [zap.Error(err)], the field ["error"]. *)
Definition zap_Error (err : error) : zapcore.Field :=
  {| zapcore.Key := "error"; zapcore.Value := zapcore.ErrorValue err |}.

(** [fmt]'s [%s] on a value. *)
Definition fmt_s (v : value) : string :=
  match v with
  | VErr e => Error e
  | VStr s => s
  | VInt n => "%!s(int=" ++ decimal n ++ ")"
  end.

(** [fmt.Sprintf] on a template whose verbs are [%s], as those of the
    source are: each verb takes the next argument, and prints
    [%!s(MISSING)] when there is none.  Other verbs and surplus
    arguments, which the source does not have, are not modelled: the
    former are copied, the latter dropped. *)
Fixpoint Sprintf (template : string) (args : list value) : string :=
  match template with
  | EmptyString => EmptyString
  | String ch rest =>
      match rest with
      | String verb rest' =>
          if Ascii.eqb ch "%" && Ascii.eqb verb "s" then
            match args with
            | a :: args' => fmt_s a ++ Sprintf rest' args'
            | [] => "%!s(MISSING)" ++ Sprintf rest' []
            end
          else String ch (Sprintf rest args)
      | EmptyString => String ch EmptyString
      end
  end.

(** The sugar's [getMessage] on a template and arguments, as [Debugf],
    [Infof] and [Errorf] call it with a template that is not empty. *)
Definition getMessage (template : string) (fmtArgs : list value) : string :=
  match fmtArgs with
  | [] => template
  | _ => Sprintf template fmtArgs
  end.

Definition sugar_logf (lvl : zapcore.Level) (l : option zapLogger)
    (template : string) (args : list value) : Prog unit :=
  log_at lvl l (getMessage template args) [].

(** [sugarLogger.Info(s)] with one string: the message is the string. *)
Definition sugar_Info (l : option zapLogger) (s : string) : Prog unit :=
  log_at zapcore.InfoLevel l s [].

(** [for i := 0; i < n; i++ { body }], the body not using [i]. *)
Fixpoint for_range (n : nat) (body : Prog unit) : Prog unit :=
  match n with
  | O => pret tt
  | S n' => pbind body (fun _ => for_range n' body)
  end.

(** ** The demos (lines 29-118) *)

Module httpc.
(** [http.Response], by the field the demos read. *)
Record Response := { Status : string }.
End httpc.

Section Demos.

Local Open Scope prog_scope.

(** What the network answers to [http.Get(url)]: a response, whose body
    is then open, or an error. *)
Variable Get : string -> httpc.Response + error.

Definition http_Get (url : string) : Prog (httpc.Response + error) :=
  fun s =>
    match Get url with
    | inl resp =>
        (Returns (inl resp), set_open_bodies (S (open_bodies s)) s)
    | inr err => (Returns (inr err), s)
    end.

(** [resp.Body.Close()] *)
Definition Body_Close (resp : httpc.Response) : Prog unit :=
  fun s => (Returns tt, set_open_bodies (pred (open_bodies s)) s).

(** [zap.NewProduction()], the error dropped as the source drops it: a
    logger behind a sampler just built. *)
Definition NewProduction : Prog zapLogger :=
  fun s => let (sampler, s') := new_sampler s in
           (Returns (zap_NewProduction sampler), s').

(** [InitLogger1] (lines 36-38). *)
Definition InitLogger1 : Prog unit :=
  l <- NewProduction ;;
  fun s => (Returns tt, set_logger (Some l) s).

(** [simpleHttpGet1] (lines 40-53). *)
Definition simpleHttpGet1 (url : string) : Prog unit :=
  r <- http_Get url ;;
  logger <- read_logger ;;
  match r with
  | inr err =>
      log_at zapcore.ErrorLevel logger "Error fetching url.."
        [ zap_String "url" url;
          zap_Error err ]
  | inl resp =>
      log_at zapcore.InfoLevel logger "Success.."
        [ zap_String "statusCode" (httpc.Status resp);
          zap_String "url" url ] ;;
      Body_Close resp
  end.

(** [mainDemo1] (lines 29-34). *)
Definition mainDemo1 : Prog unit :=
  InitLogger1 ;;
  logger <- read_logger ;;
  defer_call (Sync logger)
    (simpleHttpGet1 "www.sogou.com" ;;
     simpleHttpGet1 "http://www.sogou.com").

(** [InitLogger2] (lines 74-78): [logger.Sugar()] is a method call on the
    pointer just assigned. *)
Definition InitLogger2 : Prog unit :=
  l <- NewProduction ;;
  (fun s => (Returns tt, set_logger (Some l) s)) ;;
  logger <- read_logger ;;
  base <- deref logger ;;
  fun s => (Returns tt, set_sugarLogger (Some base) s).

(** [simpleHttpGet2] (lines 79-88). *)
Definition simpleHttpGet2 (url : string) : Prog unit :=
  sugarLogger <- read_sugarLogger ;;
  sugar_logf zapcore.DebugLevel sugarLogger
    "Trying to hit GET request for %s" [VStr url] ;;
  r <- http_Get url ;;
  sugarLogger <- read_sugarLogger ;;
  match r with
  | inr err =>
      sugar_logf zapcore.ErrorLevel sugarLogger
        "Error fetching URL %s : Error = %s" [VStr url; VErr err]
  | inl resp =>
      sugar_logf zapcore.InfoLevel sugarLogger
        "Success! statusCode = %s for URL %s"
        [VStr (httpc.Status resp); VStr url] ;;
      Body_Close resp
  end.

(** [mainDemo2] (lines 67-72). *)
Definition mainDemo2 : Prog unit :=
  InitLogger2 ;;
  sugarLogger <- read_sugarLogger ;;
  defer_call (Sync sugarLogger)
    (simpleHttpGet2 "www.google.com" ;;
     simpleHttpGet2 "http://www.google.com").

(** [InitLogger3] (lines 105-118). *)
Definition InitLogger3 : Prog unit :=
  let writeSyncer := getLogWriter in
  let encoder := getEncoder in
  (fun s => (Returns tt,
             set_logger
               (Some (zap_New_AddCaller encoder writeSyncer
                        zapcore.DebugLevel)) s)) ;;
  logger <- read_logger ;;
  base <- deref logger ;;
  fun s => (Returns tt, set_sugarLogger (Some base) s).

(** The loop of [mainDemo3] (lines 98-100), [n] being its bound. *)
Definition test_logs (n : nat) : Prog unit :=
  for_range n (sugarLogger <- read_sugarLogger ;;
               sugar_Info sugarLogger "test log").

(** [mainDemo3] (lines 94-103). *)
Definition mainDemo3 : Prog unit :=
  InitLogger3 ;;
  sugarLogger <- read_sugarLogger ;;
  defer_call (Sync sugarLogger)
    (test_logs (Z.to_nat 10000) ;;
     simpleHttpGet2 "www.sogou.com" ;;
     simpleHttpGet2 "http://www.sogou.com").

End Demos.

(** ** Vocabulary of the statements on the demos *)

(** The entries among events, with their writers. *)
Fixpoint logged_entries (evs : list Event)
  : list (WriteSyncer * zapcore.Entry) :=
  match evs with
  | [] => []
  | Logged ws e :: rest => (ws, e) :: logged_entries rest
  | Synced _ :: rest => logged_entries rest
  end.

Definition test_log_entry : zapcore.Entry :=
  {| zapcore.Level_ := zapcore.InfoLevel; zapcore.Message := "test log";
     zapcore.Fields := [] |}.

(** The entry [simpleHttpGet1] makes of an answer. *)
Definition fetched1 (url : string) (r : httpc.Response + error)
  : zapcore.Entry :=
  match r with
  | inr err =>
      {| zapcore.Level_ := zapcore.ErrorLevel;
         zapcore.Message := "Error fetching url..";
         zapcore.Fields := [zap_String "url" url; zap_Error err] |}
  | inl resp =>
      {| zapcore.Level_ := zapcore.InfoLevel;
         zapcore.Message := "Success..";
         zapcore.Fields := [zap_String "statusCode" (httpc.Status resp);
                            zap_String "url" url] |}
  end.

(** The entries [simpleHttpGet2] makes: the one before the request and
    the one of the answer. *)
Definition trying2 (url : string) : zapcore.Entry :=
  {| zapcore.Level_ := zapcore.DebugLevel;
     zapcore.Message := "Trying to hit GET request for " ++ url;
     zapcore.Fields := [] |}.

Definition fetched2 (url : string) (r : httpc.Response + error)
  : zapcore.Entry :=
  match r with
  | inr err =>
      {| zapcore.Level_ := zapcore.ErrorLevel;
         zapcore.Message :=
           "Error fetching URL " ++ url ++ " : Error = " ++ Error err;
         zapcore.Fields := [] |}
  | inl resp =>
      {| zapcore.Level_ := zapcore.InfoLevel;
         zapcore.Message :=
           "Success! statusCode = " ++ httpc.Status resp
           ++ " for URL " ++ url;
         zapcore.Fields := [] |}
  end.

(** The process with more events. *)
Definition add_events (evs : list Event) (s : Process) : Process :=
  set_events (events s ++ evs) s.

(** The entries of a run that reach a logger's core or sampler: those of
    an enabled level. *)
Definition enabled_entries (l : zapLogger) (es : list zapcore.Entry)
  : list zapcore.Entry :=
  filter (fun e => Enabled (Enab l) (zapcore.Level_ e)) es.

(** The logger's sampler, if it has one, has room for [k] more entries
    before it may drop any. *)
Definition room (s : Process) (l : zapLogger) (k : nat) : Prop :=
  match Sampling l with
  | Some sampler => (handed s sampler + k <= sampler_first)%nat
  | None => True
  end.

(** The process after the logger's sampler, if it has one, has been
    handed [k] more entries. *)
Definition count_handed (l : zapLogger) (k : nat) (s : Process) : Process :=
  match Sampling l with
  | Some sampler =>
      set_handed (fun j => if Nat.eqb j sampler then (handed s j + k)%nat
                           else handed s j) s
  | None => s
  end.

(** The entries of a run that a logger's threshold lets through, as the
    events of their going to its core. *)
Definition let_through (l : zapLogger) (es : list zapcore.Entry)
  : list Event :=
  map (Logged (Out l))
    (filter (fun e => Enabled (Enab l) (zapcore.Level_ e)) es).

(** The process after a logger has been called with an entry while its
    sampler, if it has one, had room: the entry is logged when its level
    is enabled. *)
Definition logs (l : zapLogger) (e : zapcore.Entry) (s : Process) : Process :=
  if Enabled (Enab l) (zapcore.Level_ e)
  then add_events [Logged (Out l) e] (count_handed l 1 s)
  else s.

(** A process that has just started; its samplers, once they have been
    handed [sampler_first] entries, keep every hundredth. *)
Definition started : Process :=
  {| var_logger := None; var_sugarLogger := None; events := [];
     open_bodies := 0;
     handed := fun _ => 0%nat;
     next_sampler := 0;
     sampler_keeps := fun _ n _ => Nat.eqb (Nat.modulo (S n) 100) 0 |}.

(** The process after [InitLogger1] and after [InitLogger3]. *)
Definition production_process : Process :=
  set_logger (Some (zap_NewProduction 0)) (snd (new_sampler started)).

Definition file_process : Process :=
  set_sugarLogger
    (Some (zap_New_AddCaller getEncoder getLogWriter zapcore.DebugLevel))
    (set_logger
       (Some (zap_New_AddCaller getEncoder getLogWriter zapcore.DebugLevel))
       started).

(** The production process after a burst: its sampler has been handed
    [sampler_first] entries. *)
Definition busy_process : Process :=
  set_handed (fun _ => sampler_first) production_process.

(** A handler that does not come back. *)
Definition hang_forever : Go unit := fun w => (Hangs, w).

(** A network that answers the addresses with a scheme and refuses the
    others. *)
Definition sample_Get (url : string) : httpc.Response + error :=
  if strings.HasPrefix url "http://"
  then inl {| httpc.Status := "200 OK" |}
  else inr (errorString "unsupported protocol scheme").

(** ** Lemmas on [strings] *)

Section StringFacts.

Lemma append_nil_r (s : string) : s ++ "" = s.
Proof. induction s as [|c s IH]; simpl; [reflexivity | now rewrite IH]. Qed.

Lemma append_assoc (a b c : string) : (a ++ b) ++ c = a ++ b ++ c.
Proof. induction a as [|x a IH]; simpl; [reflexivity | now rewrite IH]. Qed.

Lemma ToLower_app (a b : string) :
  strings.ToLower (a ++ b) = strings.ToLower a ++ strings.ToLower b.
Proof. induction a as [|x a IH]; simpl; [reflexivity | now rewrite IH]. Qed.

(** A split of the lowered string is the image of a split of the string. *)
Lemma ToLower_split (s a b : string) :
  strings.ToLower s = a ++ b ->
  exists a' b', s = a' ++ b' /\
                strings.ToLower a' = a /\ strings.ToLower b' = b.
Proof.
  revert a. induction s as [|c s IH]; intros a H.
  - destruct a; simpl in H; [|discriminate].
    exists "", "". repeat split. exact H.
  - destruct a as [|x a]; simpl in H.
    + exists "", (String c s). repeat split. exact H.
    + injection H as Hx Hs. destruct (IH _ Hs) as (a' & b' & -> & Ha & Hb).
      exists (String c a'), b'. simpl. now rewrite Ha, Hx.
Qed.

Lemma HasPrefix_iff (s p : string) :
  strings.HasPrefix s p = true <-> exists post, s = p ++ post.
Proof.
  revert s. induction p as [|x p IH]; intros s; simpl.
  - split; [intros _; now exists s | intros _; now destruct s].
  - destruct s as [|c s].
    + split; [discriminate | intros [post H]; discriminate].
    + rewrite andb_true_iff, Ascii.eqb_eq, IH. split.
      * intros [-> [post ->]]. now exists post.
      * intros [post H]. injection H as -> ->. split; [reflexivity|].
        now exists post.
Qed.

Lemma Index_lower_bound (s p : string) : -1 <= strings.Index s p.
Proof.
  induction s as [|c s IH]; simpl.
  - destruct (strings.HasPrefix "" p); lia.
  - destruct (strings.HasPrefix (String c s) p); [lia|].
    destruct (Z.ltb_spec (strings.Index s p) 0); lia.
Qed.

(** [Contains] is the substring relation. *)
Lemma Contains_iff (s p : string) :
  strings.Contains s p = true <-> exists pre post, s = pre ++ p ++ post.
Proof.
  unfold strings.Contains. rewrite Z.leb_le.
  induction s as [|c s IH]; simpl.
  - destruct (strings.HasPrefix "" p) eqn:E.
    + split; [intros _|lia]. apply HasPrefix_iff in E as [post E].
      now exists "", post.
    + split; [lia|]. intros (pre & post & H).
      destruct pre; simpl in H; [|discriminate].
      assert (strings.HasPrefix "" p = true)
        by (apply HasPrefix_iff; now exists post).
      congruence.
  - destruct (strings.HasPrefix (String c s) p) eqn:E.
    + split; [intros _|lia]. apply HasPrefix_iff in E as [post E].
      now exists "", post.
    + pose proof (Index_lower_bound s p) as Hlb.
      destruct (Z.ltb_spec (strings.Index s p) 0) as [Hneg|Hpos].
      * split; [lia|]. intros (pre & post & H).
        destruct pre as [|x pre]; simpl in H.
        -- assert (strings.HasPrefix (String c s) p = true)
             by (apply HasPrefix_iff; now exists post).
           congruence.
        -- injection H as _ H.
           assert (0 <= strings.Index s p)
             by (apply IH; now exists pre, post).
           lia.
      * split; [intros _|lia]. destruct (proj1 IH Hpos) as (pre & post & ->).
        now exists (String c pre), post.
Qed.

Lemma all_bytes_complete (x : ascii) : In x all_bytes.
Proof.
  unfold all_bytes. rewrite <- (ascii_nat_embedding x).
  apply in_map, in_seq. pose proof (nat_ascii_bounded x). lia.
Qed.

Lemma same_letterb_iff (x y : ascii) :
  same_letterb x y = true <-> same_letter x y.
Proof.
  unfold same_letterb, same_letter.
  rewrite !orb_true_iff, Ascii.eqb_eq, !existsb_exists. split.
  - intros [[H|([p q] & Hin & H)]|([p q] & Hin & H)]; cbn [fst snd] in *.
    + now left.
    + apply andb_true_iff in H as [->%Ascii.eqb_eq ->%Ascii.eqb_eq].
      right. now left.
    + apply andb_true_iff in H as [->%Ascii.eqb_eq ->%Ascii.eqb_eq].
      right. now right.
  - intros [H|[H|H]].
    + left. now left.
    + left. right. exists (x, y). split; [exact H|].
      cbn [fst snd]. now rewrite !Ascii.eqb_refl.
    + right. exists (y, x). split; [exact H|].
      cbn [fst snd]. now rewrite !Ascii.eqb_refl.
Qed.

(** The byte map of [ToLower] identifies exactly the two forms of each
    letter of the alphabet: checked on every pair of bytes. *)
Lemma lower_byte_folds_alphabet :
  forallb (fun x =>
             forallb (fun y =>
                        Bool.eqb (same_letterb x y)
                          (Ascii.eqb (strings.lower_byte x)
                             (strings.lower_byte y)))
               all_bytes)
    all_bytes = true.
Proof. vm_compute. reflexivity. Qed.

Lemma same_letter_iff (x y : ascii) :
  same_letter x y <-> strings.lower_byte x = strings.lower_byte y.
Proof.
  rewrite <- same_letterb_iff, <- Ascii.eqb_eq.
  pose proof lower_byte_folds_alphabet as H.
  rewrite forallb_forall in H. specialize (H x (all_bytes_complete x)).
  rewrite forallb_forall in H. specialize (H y (all_bytes_complete y)).
  apply Bool.eqb_prop in H. now rewrite H.
Qed.

Lemma same_letters_iff (a b : string) :
  same_letters a b <-> strings.ToLower a = strings.ToLower b.
Proof.
  revert b. induction a as [|x a IH]; intros [|y b]; simpl;
    try (split; [tauto | discriminate]).
  - tauto.
  - rewrite IH, same_letter_iff. split.
    + intros [-> ->]. reflexivity.
    + intros H. injection H as H1 H2. now split.
Qed.

(** The test the code makes against a pattern written in lower case is
    the case-insensitive containment of the specification. *)
Lemma Contains_ToLower_iff (msg pat : string) :
  strings.ToLower pat = pat ->
  (strings.Contains (strings.ToLower msg) pat = true
   <-> contains_any_case msg pat).
Proof.
  intros Hpat. rewrite Contains_iff. unfold contains_any_case. split.
  - intros (pre & post & H).
    apply ToLower_split in H as (pre' & rest & -> & Hpre & Hrest).
    apply ToLower_split in Hrest as (mid & post' & -> & Hmid & Hpost).
    exists pre', mid, post'. split; [reflexivity|].
    apply same_letters_iff. now rewrite Hmid, Hpat.
  - intros (pre & mid & post & -> & Hsame).
    apply same_letters_iff in Hsame. rewrite Hpat in Hsame.
    exists (strings.ToLower pre), (strings.ToLower post).
    now rewrite !ToLower_app, Hsame.
Qed.

End StringFacts.

(** ** The classification *)

Lemma pattern_broken_pipe_lower :
  strings.ToLower "broken pipe" = "broken pipe".
Proof. reflexivity. Qed.

Lemma pattern_connection_reset_lower :
  strings.ToLower "connection reset by peer" = "connection reset by peer".
Proof. reflexivity. Qed.

Lemma brokenPipe_iff (err : value) :
  brokenPipe err = true <-> broken_connection_signature err.
Proof.
  unfold broken_connection_signature. split.
  - destruct err as [e| |]; try discriminate.
    destruct e as [op net source addr inner| |]; try discriminate.
    destruct inner as [| syscall cause |]; try discriminate.
    unfold brokenPipe. rewrite orb_true_iff.
    rewrite (Contains_ToLower_iff _ _ pattern_broken_pipe_lower).
    rewrite (Contains_ToLower_iff _ _ pattern_connection_reset_lower).
    intros H. now exists op, net, source, addr, syscall, cause.
  - intros (op & net & source & addr & syscall & cause & -> & H).
    unfold brokenPipe. rewrite orb_true_iff.
    rewrite (Contains_ToLower_iff _ _ pattern_broken_pipe_lower).
    now rewrite (Contains_ToLower_iff _ _ pattern_connection_reset_lower).
Qed.

(** Only an error value is ever classified [BrokenConnection], so the
    assertion [err.(error)] of line 216 holds where it is made. *)
Lemma brokenPipe_is_error (err : value) :
  brokenPipe err = true -> exists e, err = VErr e.
Proof. destruct err as [e| |]; try discriminate. intros _. now exists e. Qed.


(** ** The error list *)

Lemma errorMsgs_String_lines (a : list gin.Error) :
  errorMsgs_String a = errorMsgs_lines 0 a.
Proof. now destruct a. Qed.

Lemma errorMsgs_lines_app (a b : list gin.Error) :
  forall i, errorMsgs_lines i (a ++ b)
            = errorMsgs_lines i a
              ++ errorMsgs_lines (i + Z.of_nat (length a)) b.
Proof.
  induction a as [|msg a IH]; intros i.
  - simpl. now rewrite Z.add_0_r.
  - cbn [errorMsgs_lines List.app length]. rewrite IH, !append_assoc.
    replace (i + 1 + Z.of_nat (length a))
      with (i + Z.of_nat (S (length a))) by lia.
    reflexivity.
Qed.

Lemma ByType_Private (a : list gin.Error) :
  gin.ByType a gin.ErrorTypePrivate
  = filter (fun msg => gin.IsType msg gin.ErrorTypePrivate) a.
Proof. now destruct a. Qed.

(** What [c.Error] appends shows as one more line of the private errors. *)
Lemma private_errors_after_Error (es : list gin.Error) (e : error) :
  errorMsgs_String
    (gin.ByType (es ++ [{| gin.Err := e; gin.Type_ := gin.ErrorTypePrivate;
                           gin.Meta := None |}]) gin.ErrorTypePrivate)
  = errorMsgs_String (gin.ByType es gin.ErrorTypePrivate)
    ++ "Error #"
    ++ fmt_02d (Z.of_nat (length (gin.ByType es gin.ErrorTypePrivate)) + 1)
    ++ ": " ++ Error e ++ newline.
Proof.
  rewrite !ByType_Private, filter_app, !errorMsgs_String_lines.
  rewrite errorMsgs_lines_app. cbn [filter].
  assert (Hp : gin.IsType {| gin.Err := e; gin.Type_ := gin.ErrorTypePrivate;
                             gin.Meta := None |} gin.ErrorTypePrivate = true)
    by reflexivity.
  rewrite Hp, Z.add_0_l. cbn [errorMsgs_lines gin.Meta gin.Err].
  change ("" ++ "") with "". now rewrite append_nil_r.
Qed.

(** ** The response writer *)

Local Open Scope list_scope.

Lemma status_after_AbortWithStatus (code : Z) (wr : gin.responseWriter) :
  0 < code ->
  gin.Status (gin.WriteHeaderNow (gin.WriteHeader code wr)) = code.
Proof.
  intros Hcode. unfold gin.Status, gin.WriteHeaderNow, gin.WriteHeader.
  destruct (Z.ltb_spec 0 code); [|lia].
  destruct (Z.eqb_spec (gin.status wr) code) as [E|E]; cbn [andb negb];
    destruct (gin.Written _); cbn [gin.status]; congruence.
Qed.

Lemma sent_after_AbortWithStatus (code : Z) (wr : gin.responseWriter) :
  0 < code ->
  gin.ResponseWriter (gin.WriteHeaderNow (gin.WriteHeader code wr))
  = gin.ResponseWriter wr
    ++ (if gin.Written wr then [] else [http.StatusLine code]).
Proof.
  intros Hcode. unfold gin.WriteHeaderNow, gin.WriteHeader, gin.Written.
  destruct (Z.ltb_spec 0 code); [|lia].
  destruct (Z.eqb_spec (gin.status wr) code) as [E|E]; cbn [andb negb];
    cbn [gin.size gin.status gin.ResponseWriter];
    destruct (gin.size wr =? gin.noWritten); cbn [negb gin.ResponseWriter];
    rewrite ?app_nil_r; congruence.
Qed.

Lemma body_sent_status_line (out : list http.Sent) (b : bool) (code : Z) :
  body_sent (out ++ (if b then [] else [http.StatusLine code])) = body_sent out.
Proof.
  unfold body_sent. rewrite filter_app. destruct b; cbn; now rewrite app_nil_r.
Qed.

(** ** The middlewares, whatever the rest of the chain does *)

Section Properties.

Variable ClientIP : http.Request -> string.
Variable DumpRequest : http.Request -> bool -> dumped.
Variable traceback : World -> string.

Local Abbreviation completed := (request_completed ClientIP).
Local Abbreviation Logger := (GinLogger ClientIP).
Local Abbreviation Recovery := (GinRecovery DumpRequest traceback).

(** The snapshot [GinRecovery] takes of the request of a world. *)
Local Abbreviation snapshot w :=
  (bytes_of (DumpRequest (gin.Request (c w)) false)).

(** The clean path: the deferred function finds nothing to recover. *)
Lemma GinRecovery_clean (stack : bool) (c_Next : Go unit) (w w1 : World) :
  c_Next w = (Returns tt, w1) ->
  Recovery stack c_Next w = (Returns tt, w1).
Proof.
  intros H. unfold GinRecovery, defer_recover. now rewrite H.
Qed.

Lemma GinRecovery_hangs (stack : bool) (c_Next : Go unit) (w w1 : World) :
  c_Next w = (Hangs, w1) ->
  Recovery stack c_Next w = (Hangs, w1).
Proof.
  intros H. unfold GinRecovery, defer_recover. now rewrite H.
Qed.

(** The Generic path, as one equation. *)
Lemma GinRecovery_generic_run (stack : bool) (c_Next : Go unit)
    (w w1 : World) (err : value) :
  c_Next w = (Panics err, w1) ->
  brokenPipe err = false ->
  Recovery stack c_Next w
  = (Returns tt, after_generic DumpRequest traceback stack err w1).
Proof.
  intros H Hb. unfold GinRecovery, defer_recover. rewrite H.
  unfold bind, get_c, httputil_DumpRequest, ret. cbn. rewrite Hb.
  destruct stack; reflexivity.
Qed.

(** The BrokenConnection path, as one equation. *)
Lemma GinRecovery_broken_run (stack : bool) (c_Next : Go unit)
    (w w1 : World) (e : error) :
  c_Next w = (Panics (VErr e), w1) ->
  brokenPipe (VErr e) = true ->
  Recovery stack c_Next w = (Returns tt, after_broken DumpRequest e w1).
Proof.
  intros H Hb. unfold GinRecovery, defer_recover. rewrite H.
  unfold bind, get_c, httputil_DumpRequest, ret. cbn -[brokenPipe].
  rewrite Hb. reflexivity.
Qed.

(** C1: when the rest of the chain raises a fault classified Generic,
    GinRecovery returns normally (the fault goes no further and the
    caller carries on), having emitted exactly one error-level entry
    with message "[Recovery from panic]" and the fields error (the
    raised value) and request (the snapshot), followed by the stack
    field when the flag is set; the response status is 500, the status
    line goes out if none had, and no body byte is added. *)
Theorem GinRecovery_generic_fault (stack : bool) (c_Next : Go unit)
    (w w1 : World) (err : value) :
  c_Next w = (Panics err, w1) ->
  classify err = Generic ->
  exists w2 entry,
    Recovery stack c_Next w = (Returns tt, w2) /\
    logger w2 = logger w1 ++ [entry] /\
    zapcore.Level_ entry = zapcore.ErrorLevel /\
    zapcore.Message entry = "[Recovery from panic]" /\
    zapcore.Fields entry
    = [zap_Any "error" err; zap_String "request" (snapshot w1)]
      ++ (if stack then [zap_String "stack" ("goroutine " ++ traceback w1)]
          else []) /\
    gin.Status (gin.Writer (c w2)) = http.StatusInternalServerError /\
    gin.ResponseWriter (gin.Writer (c w2))
    = gin.ResponseWriter (gin.Writer (c w1))
      ++ (if gin.Written (gin.Writer (c w1)) then []
          else [http.StatusLine http.StatusInternalServerError]) /\
    body_sent (gin.ResponseWriter (gin.Writer (c w2)))
    = body_sent (gin.ResponseWriter (gin.Writer (c w1))) /\
    gin.index (c w2) = gin.abortIndex.
Proof.
  intros H Hc. unfold classify in Hc.
  destruct (brokenPipe err) eqn:Hb; [discriminate|].
  eexists _, _. split; [exact (GinRecovery_generic_run stack _ _ _ _ H Hb)|].
  unfold after_generic, generic_entry.
  cbn [logger c zapcore.Level_ zapcore.Message zapcore.Fields
       set_index set_Writer gin.Writer gin.index].
  repeat split.
  - now apply status_after_AbortWithStatus.
  - now apply sent_after_AbortWithStatus.
  - rewrite sent_after_AbortWithStatus by reflexivity.
    apply body_sent_status_line.
Qed.

(** C3: when the rest of the chain raises a fault classified
    BrokenConnection, GinRecovery emits exactly one error-level entry
    whose message is the request path and whose fields are error (the
    raised value) and request (the snapshot), with no stack field
    whatever the flag; it appends the error, as a private one, to the
    context's error list, so that the string GinLogger logs under
    "errors" gains its line; it aborts the chain and leaves the writer
    as it was, no status line sent. *)
Theorem GinRecovery_broken_connection (stack : bool) (c_Next : Go unit)
    (w w1 : World) (err : value) :
  c_Next w = (Panics err, w1) ->
  classify err = BrokenConnection ->
  exists e w2 entry,
    err = VErr e /\
    Recovery stack c_Next w = (Returns tt, w2) /\
    logger w2 = logger w1 ++ [entry] /\
    zapcore.Level_ entry = zapcore.ErrorLevel /\
    zapcore.Message entry = url.Path (http.URL (gin.Request (c w1))) /\
    zapcore.Fields entry
    = [zap_Any "error" err; zap_String "request" (snapshot w1)] /\
    field "stack" (zapcore.Fields entry) = None /\
    gin.Errors (c w2)
    = gin.Errors (c w1)
      ++ [{| gin.Err := e; gin.Type_ := gin.ErrorTypePrivate;
             gin.Meta := None |}] /\
    errorMsgs_String (gin.ByType (gin.Errors (c w2)) gin.ErrorTypePrivate)
    = (errorMsgs_String (gin.ByType (gin.Errors (c w1)) gin.ErrorTypePrivate)
       ++ "Error #"
       ++ fmt_02d (Z.of_nat (length (gin.ByType (gin.Errors (c w1))
                                       gin.ErrorTypePrivate)) + 1)
       ++ ": " ++ Error e ++ newline)%string /\
    gin.Writer (c w2) = gin.Writer (c w1) /\
    gin.index (c w2) = gin.abortIndex.
Proof.
  intros H Hc. unfold classify in Hc.
  destruct (brokenPipe err) eqn:Hb; [|discriminate].
  destruct (brokenPipe_is_error _ Hb) as [e ->].
  eexists e, _, _. split; [reflexivity|].
  split; [exact (GinRecovery_broken_run stack _ _ _ _ H Hb)|].
  unfold after_broken, broken_entry.
  cbn [logger c zapcore.Level_ zapcore.Message zapcore.Fields
       set_index set_Errors gin.Writer gin.index gin.Errors].
  repeat split. apply private_errors_after_Error.
Qed.

(** C6: built with the flag off, GinRecovery puts no stack field in the
    entry of a Generic fault; built with the flag on, it puts one in
    every such entry, and its text is not empty. *)
Theorem GinRecovery_stack_field (stack : bool) (c_Next : Go unit)
    (w w1 : World) (err : value) :
  c_Next w = (Panics err, w1) ->
  classify err = Generic ->
  exists w2 entry,
    Recovery stack c_Next w = (Returns tt, w2) /\
    logger w2 = logger w1 ++ [entry] /\
    (stack = false -> field "stack" (zapcore.Fields entry) = None) /\
    (stack = true ->
     exists trace, field "stack" (zapcore.Fields entry)
                   = Some (zapcore.StringValue trace) /\ trace <> "").
Proof.
  intros H Hc. unfold classify in Hc.
  destruct (brokenPipe err) eqn:Hb; [discriminate|].
  eexists _, _. split; [exact (GinRecovery_generic_run stack _ _ _ _ H Hb)|].
  unfold after_generic, generic_entry.
  cbn [logger zapcore.Fields]. split; [reflexivity|].
  split; intros ->.
  - destruct err; reflexivity.
  - exists ("goroutine " ++ traceback w1)%string. split; [|discriminate].
    destruct err; reflexivity.
Qed.

(** C9: when dumping the request fails, the snapshot is empty and
    GinRecovery goes on: it returns normally and the fault's entry is
    emitted, at error level, with an empty request field. *)
Theorem GinRecovery_dump_failure (stack : bool) (c_Next : Go unit)
    (w w1 : World) (err : value) (failure : error) :
  c_Next w = (Panics err, w1) ->
  DumpRequest (gin.Request (c w1)) false = DumpFailed failure ->
  exists w2 entry,
    snapshot w1 = "" /\
    Recovery stack c_Next w = (Returns tt, w2) /\
    logger w2 = logger w1 ++ [entry] /\
    zapcore.Level_ entry = zapcore.ErrorLevel /\
    field "error" (zapcore.Fields entry)
    = Some (zapcore.Value (zap_Any "error" err)) /\
    field "request" (zapcore.Fields entry) = Some (zapcore.StringValue "").
Proof.
  intros H Hd. destruct (brokenPipe err) eqn:Hb.
  - destruct (brokenPipe_is_error _ Hb) as [e ->].
    eexists _, _. split; [now rewrite Hd|].
    split; [exact (GinRecovery_broken_run stack _ _ _ _ H Hb)|].
    unfold after_broken, broken_entry.
    cbn [logger zapcore.Level_ zapcore.Fields]. rewrite Hd.
    repeat split.
  - eexists _, _. split; [now rewrite Hd|].
    split; [exact (GinRecovery_generic_run stack _ _ _ _ H Hb)|].
    unfold after_generic, generic_entry.
    cbn [logger zapcore.Level_ zapcore.Fields]. rewrite Hd.
    repeat split; destruct err; reflexivity.
Qed.

Lemma GinLogger_run (c_Next : Go unit) (w w1 : World) :
  c_Next w = (Returns tt, w1) ->
  Logger c_Next w = (Returns tt, logged ClientIP w w1).
Proof.
  intros H. unfold GinLogger, bind, time_Now, get_c. rewrite H. reflexivity.
Qed.

(** C7: when the rest of the chain returns, GinLogger emits exactly one
    info-level entry; its path, its query and the start of its cost are
    those read before the call, its status is the writer's status after
    it, with method, client address, user agent and the private errors
    in one string (empty when there are none), and the cost, the clock's
    reading after less the one before, is not negative. *)
Theorem GinLogger_request_completed (c_Next : Go unit) (w w1 : World) :
  c_Next w = (Returns tt, w1) ->
  clock w <= clock w1 ->
  exists w2 entry,
    Logger c_Next w = (Returns tt, w2) /\
    logger w2 = logger w1 ++ [entry] /\
    c w2 = c w1 /\
    zapcore.Level_ entry = zapcore.InfoLevel /\
    zapcore.Fields entry
    = [ zap_Int "status" (gin.Status (gin.Writer (c w1)));
        zap_String "method" (http.Method (gin.Request (c w1)));
        zap_String "path" (url.Path (http.URL (gin.Request (c w))));
        zap_String "query" (url.RawQuery (http.URL (gin.Request (c w))));
        zap_String "ip" (ClientIP (gin.Request (c w1)));
        zap_String "user-agent" (http.UserAgent (gin.Request (c w1)));
        zap_String "errors"
          (errorMsgs_String
             (gin.ByType (gin.Errors (c w1)) gin.ErrorTypePrivate));
        zap_Duration "cost" (clock w1 - clock w) ] /\
    (gin.ByType (gin.Errors (c w1)) gin.ErrorTypePrivate = [] ->
     field "errors" (zapcore.Fields entry) = Some (zapcore.StringValue "")) /\
    field "status" (zapcore.Fields entry)
    = Some (zapcore.IntValue (gin.Status (gin.Writer (c w2)))) /\
    0 <= clock w1 - clock w.
Proof.
  intros H Hclock. eexists _, _.
  split; [exact (GinLogger_run _ _ _ H)|].
  unfold logged, request_completed.
  cbn [logger c zapcore.Level_ zapcore.Fields].
  do 4 (split; [reflexivity|]).
  split; [intros ->; reflexivity|]. split; [reflexivity | lia].
Qed.

End Properties.

(** ** The chain: [Next] and its loop *)

Lemma c_Next_unfold (fuel : nat) (handlers : list HandlerFunc) (w : World) :
  c_Next (S fuel) handlers w
  = run_handlers handlers (c_Next fuel handlers) fuel
      (with_index (int8 (gin.index (c w) + 1)) w).
Proof. reflexivity. Qed.

(** The loop ends when the position has passed the last handler. *)
Lemma run_handlers_exit (handlers : list HandlerFunc) (next : Go unit)
    (steps : nat) (w : World) :
  int8 (Z.of_nat (length handlers)) <= gin.index (c w) ->
  run_handlers handlers next (S steps) w = (Returns tt, w).
Proof.
  intros H. cbn [run_handlers]. unfold bind, get_c.
  destruct (Z.ltb_spec (gin.index (c w)) (int8 (Z.of_nat (length handlers))));
    [lia | reflexivity].
Qed.

(** One turn of the loop: the handler at the position, then [c.index++]. *)
Lemma run_handlers_call (handlers : list HandlerFunc) (next : Go unit)
    (steps i : nat) (handler : HandlerFunc) (w : World) :
  gin.index (c w) = Z.of_nat i ->
  nth_error handlers i = Some handler ->
  Z.of_nat i < int8 (Z.of_nat (length handlers)) ->
  run_handlers handlers next (S steps) w
  = match handler next w with
    | (Returns tt, w') =>
        run_handlers handlers next steps
          (with_index (int8 (gin.index (c w') + 1)) w')
    | (Panics v, w') => (Panics v, w')
    | (Hangs, w') => (Hangs, w')
    end.
Proof.
  intros Hi Hnth Hlt. cbn [run_handlers]. unfold bind at 1. unfold get_c at 1.
  cbv beta iota. rewrite Hi.
  destruct (Z.ltb_spec (Z.of_nat i) (int8 (Z.of_nat (length handlers))));
    [|lia].
  destruct (Z.ltb_spec (Z.of_nat i) 0); [lia|].
  rewrite Nat2Z.id, Hnth. unfold bind.
  destruct (handler next w) as [[[]|v|] w']; reflexivity.
Qed.

Lemma int8_small (x : Z) : -128 <= x <= 127 -> int8 x = x.
Proof. intros H. unfold int8. rewrite Z.mod_small; lia. Qed.

Lemma left_at_cases (i : Z) (w1 : World) :
  left_at i w1 = i \/ left_at i w1 = 63.
Proof. unfold left_at. destruct (_ =? _); [right|left]; reflexivity. Qed.

Section Chain.

Variable ClientIP : http.Request -> string.
Variable DumpRequest : http.Request -> bool -> dumped.
Variable traceback : World -> string.

Local Abbreviation completed := (request_completed ClientIP).
Local Abbreviation Logger := (GinLogger ClientIP).
Local Abbreviation Recovery := (GinRecovery DumpRequest traceback).
Local Abbreviation chain := (mainDemo4 ClientIP DumpRequest traceback).
Local Abbreviation snapshot w :=
  (bytes_of (DumpRequest (gin.Request (c w)) false)).

(** What [c.Next()] does when [GinRecovery] calls it: the route's
    handler, then the end of the loop. *)
Lemma Next_under_Recovery (k : nat) (handler : Go unit) (w : World) :
  c_Next (S (S (S k))) (chain handler) (with_index 1 w)
  = match handler (with_index 2 w) with
    | (Returns tt, w1) => (Returns tt, with_index (left_at 2 w1 + 1) w1)
    | (Panics v, w1) => (Panics v, with_index (left_at 2 w1) w1)
    | (Hangs, w1) => (Hangs, with_index (left_at 2 w1) w1)
    end.
Proof.
  rewrite c_Next_unfold.
  rewrite (run_handlers_call _ _ _ 2 (endpoint handler));
    [|reflexivity..].
  unfold endpoint. change (with_index _ (with_index 1 w)) with (with_index 2 w).
  destruct (handler (with_index 2 w)) as [[[]|v|] w1]; try reflexivity.
  rewrite run_handlers_exit.
  - unfold with_index, left_at. cbn [c set_index gin.index gin.Request
      gin.Writer gin.Errors logger clock].
    destruct (_ =? _); reflexivity.
  - cbn [with_index c set_index gin.index].
    change (gin.index (c (with_index 2 w))) with 2.
    destruct (_ =? _); vm_compute; discriminate.
Qed.

(** What [c.Next()] does when [GinLogger] calls it: [GinRecovery], then
    the end of the loop. *)
Lemma Next_under_Logger (k : nat) (handler : Go unit) (w wR : World) :
  Recovery true (c_Next (S (S (S k))) (chain handler)) (with_index 1 w)
  = (Returns tt, wR) ->
  2 <= gin.index (c wR) <= 126 ->
  c_Next (S (S (S (S k)))) (chain handler) (with_index 0 w)
  = (Returns tt, with_index (gin.index (c wR) + 1) wR).
Proof.
  intros HR Hidx. rewrite c_Next_unfold.
  change (with_index _ (with_index 0 w)) with (with_index 1 w).
  rewrite (run_handlers_call _ _ _ 1 (Recovery true)); [|reflexivity..].
  rewrite HR, int8_small by lia. apply run_handlers_exit.
  cbn [with_index c set_index gin.index].
  change (int8 _) with 3. lia.
Qed.

(** What [c.Next()] does when the host calls it on a fresh context:
    [GinLogger], then the end of the loop. *)
Lemma Next_from_host (k : nat) (handler : Go unit) (w wL : World) :
  gin.index (c w) = -1 ->
  Logger (c_Next (S (S (S (S k)))) (chain handler)) (with_index 0 w)
  = (Returns tt, wL) ->
  2 <= gin.index (c wL) <= 126 ->
  c_Next (S (S (S (S (S k))))) (chain handler) w
  = (Returns tt, with_index (gin.index (c wL) + 1) wL).
Proof.
  intros Hw HL Hidx. rewrite c_Next_unfold, Hw.
  change (int8 (-1 + 1)) with 0.
  rewrite (run_handlers_call _ _ _ 0 Logger); [|reflexivity..].
  rewrite HL, int8_small by lia. apply run_handlers_exit.
  cbn [with_index c set_index gin.index].
  change (int8 _) with 3. lia.
Qed.

(** The whole run when the route's handler returns. *)
Lemma chain_clean (k : nat) (handler : Go unit) (w w1 : World) :
  gin.index (c w) = -1 ->
  handler (with_index 2 w) = (Returns tt, w1) ->
  c_Next (S (S (S (S (S k))))) (chain handler) w
  = (Returns tt, with_index (left_at 2 w1 + 3) (logged ClientIP w w1)).
Proof.
  intros Hw H.
  pose proof (Next_under_Recovery k handler w) as H3. rewrite H in H3.
  apply (GinRecovery_clean DumpRequest traceback true) in H3.
  apply Next_under_Logger in H3;
    [|cbn [with_index c set_index gin.index];
      destruct (left_at_cases 2 w1) as [E|E]; rewrite E; lia].
  apply (GinLogger_run ClientIP) in H3.
  apply (Next_from_host _ _ _ _ Hw) in H3;
    [|cbn [logged with_index c set_index gin.index];
      destruct (left_at_cases 2 w1) as [E|E]; rewrite E; lia].
  rewrite H3. cbn [logged with_index c set_index gin.index].
  unfold with_index, logged, request_completed, set_index.
  cbn [c logger clock gin.Request gin.Writer gin.Errors gin.index].
  replace (left_at 2 w1 + 1 + 1 + 1) with (left_at 2 w1 + 3) by lia.
  reflexivity.
Qed.

(** The whole run when the route's handler raises a Generic fault. *)
Lemma chain_generic (k : nat) (handler : Go unit) (w w1 : World)
    (err : value) :
  gin.index (c w) = -1 ->
  handler (with_index 2 w) = (Panics err, w1) ->
  brokenPipe err = false ->
  c_Next (S (S (S (S (S k))))) (chain handler) w
  = (Returns tt,
     with_index 65
       (logged ClientIP w
          (after_generic DumpRequest traceback true err (faulted w1)))).
Proof.
  intros Hw H Hb.
  pose proof (Next_under_Recovery k handler w) as H3. rewrite H in H3.
  apply (GinRecovery_generic_run DumpRequest traceback true) in H3;
    [|exact Hb].
  apply Next_under_Logger in H3; [|vm_compute; split; discriminate].
  apply (GinLogger_run ClientIP) in H3.
  apply (Next_from_host _ _ _ _ Hw) in H3; [|vm_compute; split; discriminate].
  rewrite H3. reflexivity.
Qed.

(** The whole run when the route's handler raises a BrokenConnection
    fault. *)
Lemma chain_broken (k : nat) (handler : Go unit) (w w1 : World)
    (e : error) :
  gin.index (c w) = -1 ->
  handler (with_index 2 w) = (Panics (VErr e), w1) ->
  brokenPipe (VErr e) = true ->
  c_Next (S (S (S (S (S k))))) (chain handler) w
  = (Returns tt,
     with_index 65
       (logged ClientIP w (after_broken DumpRequest e (faulted w1)))).
Proof.
  intros Hw H Hb.
  pose proof (Next_under_Recovery k handler w) as H3. rewrite H in H3.
  apply (GinRecovery_broken_run DumpRequest traceback true) in H3;
    [|exact Hb].
  apply Next_under_Logger in H3; [|vm_compute; split; discriminate].
  apply (GinLogger_run ClientIP) in H3.
  apply (Next_from_host _ _ _ _ Hw) in H3; [|vm_compute; split; discriminate].
  rewrite H3. reflexivity.
Qed.

(** Five units of fuel are enough for the chain of [mainDemo4]. *)
Lemma enough_fuel (fuel : nat) :
  (5 <= fuel)%nat -> exists k, fuel = S (S (S (S (S k)))).
Proof. intros H. exists (fuel - 5)%nat. lia. Qed.

(** C10: in the chain of mainDemo4, when the route's handler raises a
    Generic fault the run returns normally and GinLogger's info entry is
    still emitted, after the fault's entry: GinLogger stands before
    GinRecovery, so control comes back to it once the fault is
    recovered; the entry's status field is the 500 GinRecovery has
    set. *)
Theorem mainDemo4_generic_fault_logged (fuel : nat) (handler : Go unit)
    (w w1 : World) (err : value) :
  (5 <= fuel)%nat ->
  gin.index (c w) = -1 ->
  handler (with_index 2 w) = (Panics err, w1) ->
  classify err = Generic ->
  exists w2 fault info,
    c_Next fuel (chain handler) w = (Returns tt, w2) /\
    logger w2 = logger w1 ++ [fault; info] /\
    zapcore.Level_ fault = zapcore.ErrorLevel /\
    zapcore.Message fault = "[Recovery from panic]" /\
    zapcore.Level_ info = zapcore.InfoLevel /\
    field "status" (zapcore.Fields info)
    = Some (zapcore.IntValue http.StatusInternalServerError) /\
    gin.Status (gin.Writer (c w2)) = http.StatusInternalServerError.
Proof.
  intros Hfuel Hw H Hc. destruct (enough_fuel _ Hfuel) as [k ->].
  unfold classify in Hc. destruct (brokenPipe err) eqn:Hb; [discriminate|].
  eexists _, _, _. split; [exact (chain_generic k _ _ _ _ Hw H Hb)|].
  unfold logged, after_generic, faulted, with_index, request_completed.
  cbn [logger c set_index set_Writer gin.Writer gin.Request gin.Errors
       gin.index zapcore.Level_ zapcore.Message zapcore.Fields field
       zap_Int zapcore.Key zapcore.Value].
  split; [now rewrite <- app_assoc|].
  do 3 (split; [reflexivity|]).
  change (String.eqb "status" "status") with true. cbv iota.
  now rewrite status_after_AbortWithStatus.
Qed.

(** C5: in the chain of mainDemo4, a request whose handler returns gets
    exactly one entry, GinLogger's info entry, and none from
    GinRecovery; a request whose handler faults gets exactly two, one
    error entry from GinRecovery and then GinLogger's info entry; the
    entries of one request are pairwise distinct. *)
Theorem mainDemo4_entries_per_request (fuel : nat) (handler : Go unit)
    (w : World) :
  (5 <= fuel)%nat ->
  gin.index (c w) = -1 ->
  (forall w1,
      handler (with_index 2 w) = (Returns tt, w1) ->
      exists w2 emitted,
        c_Next fuel (chain handler) w = (Returns tt, w2) /\
        logger w2 = logger w1 ++ emitted /\
        length emitted = 1%nat /\
        count_level zapcore.InfoLevel emitted = 1%nat /\
        count_level zapcore.ErrorLevel emitted = 0%nat /\
        NoDup emitted) /\
  (forall err w1,
      handler (with_index 2 w) = (Panics err, w1) ->
      exists w2 emitted,
        c_Next fuel (chain handler) w = (Returns tt, w2) /\
        logger w2 = logger w1 ++ emitted /\
        length emitted = 2%nat /\
        count_level zapcore.InfoLevel emitted = 1%nat /\
        count_level zapcore.ErrorLevel emitted = 1%nat /\
        NoDup emitted).
Proof.
  intros Hfuel Hw. destruct (enough_fuel _ Hfuel) as [k ->]. split.
  - intros w1 H. eexists _, [_].
    split; [exact (chain_clean k _ _ _ Hw H)|].
    repeat split. repeat constructor. intros [].
  - intros err w1 H. destruct (brokenPipe err) eqn:Hb.
    + destruct (brokenPipe_is_error _ Hb) as [e ->].
      eexists _, [_; _].
      split; [exact (chain_broken k _ _ _ _ Hw H Hb)|].
      split; [cbn [logged after_broken with_index logger faulted];
              now rewrite <- app_assoc|].
      repeat split. repeat constructor.
      * intros [E|[]]. discriminate E.
      * intros [].
    + eexists _, [_; _].
      split; [exact (chain_generic k _ _ _ _ Hw H Hb)|].
      split; [cbn [logged after_generic with_index logger faulted];
              now rewrite <- app_assoc|].
      repeat split. repeat constructor.
      * intros [E|[]]. discriminate E.
      * intros [].
Qed.

(** C4, as the code has it: mainDemo4 registers GinLogger first, so
    GinLogger wraps GinRecovery: the chain is GinLogger, GinRecovery,
    then the route's handler.  When the handler faults, GinRecovery
    absorbs the fault and GinLogger's post-processing still runs: its
    info entry follows the fault's error entry, and its cost runs from
    the start taken when the chain was entered, before GinRecovery was
    reached. *)
Theorem mainDemo4_logger_wraps_recovery (fuel : nat) (handler : Go unit)
    (w w1 : World) (err : value) :
  (5 <= fuel)%nat ->
  gin.index (c w) = -1 ->
  handler (with_index 2 w) = (Panics err, w1) ->
  chain handler = [Logger; Recovery true; endpoint handler] /\
  exists w2 fault info,
    c_Next fuel (chain handler) w = (Returns tt, w2) /\
    logger w2 = logger w1 ++ [fault; info] /\
    zapcore.Level_ fault = zapcore.ErrorLevel /\
    zapcore.Level_ info = zapcore.InfoLevel /\
    field "cost" (zapcore.Fields info)
    = Some (zapcore.DurationValue (clock w1 - clock w)).
Proof.
  intros Hfuel Hw H. destruct (enough_fuel _ Hfuel) as [k ->].
  split; [reflexivity|]. destruct (brokenPipe err) eqn:Hb.
  - destruct (brokenPipe_is_error _ Hb) as [e ->].
    eexists _, _, _. split; [exact (chain_broken k _ _ _ _ Hw H Hb)|].
    split; [cbn [logged after_broken with_index logger faulted];
            now rewrite <- app_assoc|].
    repeat split.
  - eexists _, _, _. split; [exact (chain_generic k _ _ _ _ Hw H Hb)|].
    split; [cbn [logged after_generic with_index logger faulted];
            now rewrite <- app_assoc|].
    repeat split.
Qed.

(** C8, as the code has it: when the raised value is a network-operation
    error whose inner cause is a system call error whose message
    contains "broken pipe" or "connection reset by peer" in any letter
    case, the classification is BrokenConnection and GinRecovery leaves
    the writer as it was: no status is set and no status line goes
    out. *)
Theorem signature_leaves_writer (stack : bool) (c_Next : Go unit)
    (w w1 : World) (err : value) :
  c_Next w = (Panics err, w1) ->
  broken_connection_signature err ->
  classify err = BrokenConnection /\
  exists w2,
    Recovery stack c_Next w = (Returns tt, w2) /\
    gin.Writer (c w2) = gin.Writer (c w1).
Proof.
  intros H Hsig. apply brokenPipe_iff in Hsig as Hb.
  split; [unfold classify; now rewrite Hb|].
  destruct (brokenPipe_is_error _ Hb) as [e ->].
  eexists. split; [exact (GinRecovery_broken_run _ _ stack _ _ _ _ H Hb)|].
  reflexivity.
Qed.

End Chain.

(** ** Where two sentences of the specification part from the code *)

(** C4 does not hold as stated: in the chain of mainDemo4 the first
    handler, GinLogger, holds no recovery boundary, and on the request
    whose handler panics with "boom" GinLogger's post-processing is not
    skipped: its info entry is emitted. *)
Lemma logger_post_processing_not_skipped :
  fst (boom (with_index 2 sample_world)) = Panics (VStr "boom") /\
  ~ outermost_recovers
      (mainDemo4 remote_addr request_line one_goroutine boom) sample_world /\
  ~ post_processing_skipped remote_addr request_line one_goroutine boom
      sample_world.
Proof.
  split; [reflexivity|]. split.
  - intros H. apply (H (VStr "boom")). reflexivity.
  - intros H. specialize (H _ _ (surjective_pairing _)).
    vm_compute in H. discriminate H.
Qed.

(** C8 does not hold as stated: a network-operation error whose cause is a
    plain error with the message "broken pipe" has a cause message that
    contains the pattern, yet it is classified Generic and the status line
    500 goes out. *)
Lemma cause_message_alone_is_generic :
  cause_message_contains write_plain_broken_pipe "broken pipe" /\
  classify write_plain_broken_pipe = Generic /\
  exists w2,
    GinRecovery request_line one_goroutine true
      write_fails_plain sample_world = (Returns tt, w2) /\
    gin.ResponseWriter (gin.Writer (c w2))
    = [http.StatusLine http.StatusInternalServerError].
Proof.
  split; [|split].
  - eexists _, _. split; [reflexivity|]. split; [reflexivity|].
    exists "", "broken pipe", "". split; [reflexivity|].
    apply same_letters_iff. reflexivity.
  - reflexivity.
  - eexists. split; [vm_compute; reflexivity | reflexivity].
Qed.

(** ** The theorems at sample requests *)


Lemma GinRecovery_generic_fault_witness :
  boom sample_world = (Panics (VStr "boom"), snd (boom sample_world)) /\
  classify (VStr "boom") = Generic /\
  exists w2 entry,
    GinRecovery request_line one_goroutine true boom sample_world
    = (Returns tt, w2) /\
    logger w2 = [entry] /\
    zapcore.Message entry = "[Recovery from panic]" /\
    gin.Status (gin.Writer (c w2)) = 500.
Proof.
  split; [reflexivity|]. split; [reflexivity|].
  destruct (GinRecovery_generic_fault request_line one_goroutine true boom
              sample_world (snd (boom sample_world)) (VStr "boom")
              eq_refl eq_refl)
    as (w2 & entry & Hrun & Hlog & _ & Hmsg & _ & Hstatus & _).
  exists w2, entry. repeat split; assumption.
Defined.

Lemma GinRecovery_broken_connection_witness :
  write_fails sample_world
  = (Panics write_broken_pipe, sample_world) /\
  classify write_broken_pipe = BrokenConnection /\
  exists w2 entry,
    GinRecovery request_line one_goroutine true write_fails
      sample_world = (Returns tt, w2) /\
    logger w2 = [entry] /\
    zapcore.Message entry = "/hello" /\
    field "stack" (zapcore.Fields entry) = None /\
    gin.Writer (c w2) = gin.Writer (c sample_world).
Proof.
  split; [reflexivity|]. split; [reflexivity|].
  destruct (GinRecovery_broken_connection request_line one_goroutine true
              write_fails sample_world sample_world
              write_broken_pipe eq_refl eq_refl)
    as (e & w2 & entry & _ & Hrun & Hlog & _ & Hmsg & _ & Hstack & _ & _
        & Hwriter & _).
  exists w2, entry. repeat split; assumption.
Defined.

Lemma GinRecovery_stack_field_witness :
  boom sample_world = (Panics (VStr "boom"), snd (boom sample_world)) /\
  classify (VStr "boom") = Generic /\
  exists w2 entry trace,
    GinRecovery request_line one_goroutine true boom sample_world
    = (Returns tt, w2) /\
    logger w2 = [entry] /\
    field "stack" (zapcore.Fields entry) = Some (zapcore.StringValue trace) /\
    trace <> "".
Proof.
  split; [reflexivity|]. split; [reflexivity|].
  destruct (GinRecovery_stack_field request_line one_goroutine true boom
              sample_world (snd (boom sample_world)) (VStr "boom")
              eq_refl eq_refl)
    as (w2 & entry & Hrun & Hlog & _ & Hon).
  destruct (Hon eq_refl) as (trace & Hfield & Hne).
  exists w2, entry, trace. repeat split; assumption.
Defined.

Lemma GinRecovery_dump_failure_witness :
  boom sample_world = (Panics (VStr "boom"), snd (boom sample_world)) /\
  dump_fails (gin.Request (c (snd (boom sample_world)))) false
  = DumpFailed (errorString "unexpected EOF") /\
  exists w2 entry,
    GinRecovery dump_fails one_goroutine true boom sample_world
    = (Returns tt, w2) /\
    logger w2 = [entry] /\
    field "request" (zapcore.Fields entry) = Some (zapcore.StringValue "").
Proof.
  split; [reflexivity|]. split; [reflexivity|].
  destruct (GinRecovery_dump_failure dump_fails one_goroutine true boom
              sample_world (snd (boom sample_world)) (VStr "boom")
              (errorString "unexpected EOF") eq_refl eq_refl)
    as (w2 & entry & _ & Hrun & Hlog & _ & _ & Hreq).
  exists w2, entry. repeat split; assumption.
Defined.

Lemma GinLogger_request_completed_witness :
  reroute sample_world = (Returns tt, snd (reroute sample_world)) /\
  clock sample_world <= clock (snd (reroute sample_world)) /\
  exists w2 entry,
    GinLogger remote_addr reroute sample_world = (Returns tt, w2) /\
    logger w2 = [entry] /\
    zapcore.Level_ entry = zapcore.InfoLevel /\
    field "status" (zapcore.Fields entry) = Some (zapcore.IntValue 200) /\
    field "method" (zapcore.Fields entry) = Some (zapcore.StringValue "POST") /\
    field "path" (zapcore.Fields entry) = Some (zapcore.StringValue "/hello") /\
    field "query" (zapcore.Fields entry)
    = Some (zapcore.StringValue "name=zap") /\
    field "errors" (zapcore.Fields entry) = Some (zapcore.StringValue "") /\
    field "cost" (zapcore.Fields entry) = Some (zapcore.DurationValue 7).
Proof.
  split; [reflexivity|]. split; [vm_compute; discriminate|].
  destruct (GinLogger_request_completed remote_addr reroute
              sample_world (snd (reroute sample_world)) eq_refl)
    as (w2 & entry & Hrun & Hlog & _ & Hlevel & Hfields & _).
  - vm_compute; discriminate.
  - exists w2, entry. rewrite Hfields. repeat split; assumption.
Defined.

Lemma mainDemo4_generic_fault_logged_witness :
  (5 <= 5)%nat /\
  gin.index (c sample_world) = -1 /\
  boom (with_index 2 sample_world)
  = (Panics (VStr "boom"), snd (boom (with_index 2 sample_world))) /\
  classify (VStr "boom") = Generic /\
  exists w2 fault info,
    c_Next 5 (mainDemo4 remote_addr request_line one_goroutine boom)
      sample_world = (Returns tt, w2) /\
    logger w2 = [fault; info] /\
    field "status" (zapcore.Fields info) = Some (zapcore.IntValue 500).
Proof.
  split; [apply le_n|]. do 3 (split; [reflexivity|]).
  destruct (mainDemo4_generic_fault_logged remote_addr request_line
              one_goroutine 5 boom sample_world
              (snd (boom (with_index 2 sample_world))) (VStr "boom")
              (le_n 5) eq_refl eq_refl eq_refl)
    as (w2 & fault & info & Hrun & Hlog & _ & _ & _ & Hstatus & _).
  exists w2, fault, info. repeat split; assumption.
Defined.

Lemma mainDemo4_entries_per_request_witness :
  (5 <= 5)%nat /\
  gin.index (c sample_world) = -1 /\
  (exists w2 emitted,
      c_Next 5 (mainDemo4 remote_addr request_line one_goroutine hello)
        sample_world = (Returns tt, w2) /\
      logger w2 = emitted /\ length emitted = 1%nat) /\
  (exists w2 emitted,
      c_Next 5 (mainDemo4 remote_addr request_line one_goroutine boom)
        sample_world = (Returns tt, w2) /\
      logger w2 = emitted /\ length emitted = 2%nat).
Proof.
  split; [apply le_n|]. split; [reflexivity|]. split.
  - destruct (proj1 (mainDemo4_entries_per_request remote_addr request_line
                       one_goroutine 5 hello sample_world (le_n 5) eq_refl)
                _ eq_refl)
      as (w2 & emitted & Hrun & Hlog & Hlen & _).
    exists w2, emitted. repeat split; assumption.
  - destruct (proj2 (mainDemo4_entries_per_request remote_addr request_line
                       one_goroutine 5 boom sample_world (le_n 5) eq_refl)
                _ _ eq_refl)
      as (w2 & emitted & Hrun & Hlog & Hlen & _).
    exists w2, emitted. repeat split; assumption.
Defined.

Lemma mainDemo4_logger_wraps_recovery_witness :
  (5 <= 5)%nat /\
  gin.index (c sample_world) = -1 /\
  boom (with_index 2 sample_world)
  = (Panics (VStr "boom"), snd (boom (with_index 2 sample_world))) /\
  exists w2 fault info,
    c_Next 5 (mainDemo4 remote_addr request_line one_goroutine boom)
      sample_world = (Returns tt, w2) /\
    logger w2 = [fault; info] /\
    zapcore.Level_ info = zapcore.InfoLevel /\
    field "cost" (zapcore.Fields info) = Some (zapcore.DurationValue 250).
Proof.
  split; [apply le_n|]. do 2 (split; [reflexivity|]).
  destruct (mainDemo4_logger_wraps_recovery remote_addr request_line
              one_goroutine 5 boom sample_world
              (snd (boom (with_index 2 sample_world))) (VStr "boom")
              (le_n 5) eq_refl eq_refl)
    as (_ & w2 & fault & info & Hrun & Hlog & _ & Hlevel & Hcost).
  exists w2, fault, info. repeat split; assumption.
Defined.

Lemma signature_leaves_writer_witness :
  write_fails sample_world
  = (Panics write_broken_pipe, sample_world) /\
  broken_connection_signature write_broken_pipe /\
  classify write_broken_pipe = BrokenConnection /\
  exists w2,
    GinRecovery request_line one_goroutine false write_fails
      sample_world = (Returns tt, w2) /\
    gin.Writer (c w2) = gin.Writer (c sample_world).
Proof.
  assert (Hsig : broken_connection_signature write_broken_pipe).
  { eexists _, _, _, _, _, _. split; [reflexivity|]. left.
    exists "write: ", "Broken pipe", "". split; [reflexivity|].
    apply same_letters_iff. reflexivity. }
  split; [reflexivity|]. split; [exact Hsig|].
  exact (signature_leaves_writer request_line one_goroutine false
           write_fails sample_world sample_world
           write_broken_pipe eq_refl Hsig).
Defined.

(** ** The demos *)

Lemma pbind_returns {A B} (m : Prog A) (k : A -> Prog B) (s s' : Process)
    (a : A) :
  m s = (Returns a, s') -> pbind m k s = k a s'.
Proof. intros H. unfold pbind. now rewrite H. Qed.

Lemma add_events_nil (s : Process) : add_events [] s = s.
Proof.
  destruct s. unfold add_events, set_events. cbn. now rewrite app_nil_r.
Qed.

Lemma add_events_add_events (a b : list Event) (s : Process) :
  add_events b (add_events a s) = add_events (a ++ b) s.
Proof. unfold add_events, set_events. cbn. now rewrite app_assoc. Qed.

Lemma logs_events (l : zapLogger) (e : zapcore.Entry) (s : Process) :
  events (logs l e s) = events s ++ let_through l [e].
Proof.
  unfold logs, let_through. cbn [filter map].
  destruct (Enabled _ _); [|cbn; now rewrite app_nil_r].
  unfold count_handed. destruct (Sampling l); reflexivity.
Qed.

Lemma logs_open_bodies (l : zapLogger) (e : zapcore.Entry) (s : Process) :
  open_bodies (logs l e s) = open_bodies s.
Proof.
  unfold logs, count_handed. destruct (Enabled _ _), (Sampling l); reflexivity.
Qed.

Lemma logs_var_logger (l : zapLogger) (e : zapcore.Entry) (s : Process) :
  var_logger (logs l e s) = var_logger s.
Proof.
  unfold logs, count_handed. destruct (Enabled _ _), (Sampling l); reflexivity.
Qed.

Lemma logs_var_sugarLogger (l : zapLogger) (e : zapcore.Entry)
    (s : Process) :
  var_sugarLogger (logs l e s) = var_sugarLogger s.
Proof.
  unfold logs, count_handed. destruct (Enabled _ _), (Sampling l); reflexivity.
Qed.

(** A call uses up at most one place of the sampler's room. *)
Lemma room_logs (l : zapLogger) (e : zapcore.Entry) (s : Process) (k : nat) :
  room s l (S k) -> room (logs l e s) l k.
Proof.
  unfold room, logs, count_handed.
  destruct (Sampling l) as [id|]; [|trivial].
  destruct (Enabled _ _);
    cbn [handed add_events set_events set_handed];
    rewrite ?Nat.eqb_refl; lia.
Qed.

Lemma room_less (s : Process) (l : zapLogger) (k : nat) :
  room s l (S k) -> room s l k.
Proof. unfold room. destruct (Sampling l); [lia | trivial]. Qed.

(** A call of a logger that is set and whose sampler, if it has one, has
    room: the entry goes through or is dropped, by its level. *)
Lemma log_at_run (lvl : zapcore.Level) (l : zapLogger) (msg : string)
    (fields : list zapcore.Field) (s : Process) :
  room s l 1 ->
  log_at lvl (Some l) msg fields s
  = (Returns tt,
     logs l {| zapcore.Level_ := lvl; zapcore.Message := msg;
               zapcore.Fields := fields |} s).
Proof.
  intros Hroom. unfold log_at, pbind, deref, logs. cbn [zapcore.Level_].
  destruct (Enabled (Enab l) lvl); [|reflexivity].
  unfold room in Hroom. unfold count_handed.
  destruct (Sampling l) as [id|]; [|reflexivity].
  unfold sampler_Check.
  assert (Hn : (handed s id <? sampler_first)%nat = true)
    by (apply Nat.ltb_lt; lia).
  rewrite Hn. reflexivity.
Qed.

(** The body that was opened is closed after the call of the logger. *)
Lemma close_after_logs (l : zapLogger) (e : zapcore.Entry) (s : Process) :
  set_open_bodies
    (pred (open_bodies (logs l e (set_open_bodies (S (open_bodies s)) s))))
    (logs l e (set_open_bodies (S (open_bodies s)) s))
  = logs l e s.
Proof.
  unfold logs, count_handed.
  destruct (Enabled _ _), (Sampling l); destruct s; reflexivity.
Qed.

Lemma message_trying (url : string) :
  getMessage "Trying to hit GET request for %s" [VStr url]
  = ("Trying to hit GET request for " ++ url)%string.
Proof. cbn. now rewrite append_nil_r. Qed.

Lemma message_error (url : string) (err : error) :
  getMessage "Error fetching URL %s : Error = %s" [VStr url; VErr err]
  = ("Error fetching URL " ++ url ++ " : Error = " ++ Error err)%string.
Proof. cbn. now rewrite append_nil_r. Qed.

Lemma message_success (status url : string) :
  getMessage "Success! statusCode = %s for URL %s" [VStr status; VStr url]
  = ("Success! statusCode = " ++ status ++ " for URL " ++ url)%string.
Proof. cbn. now rewrite append_nil_r. Qed.

Section DemoProperties.

Variable Get : string -> httpc.Response + error.

(** [simpleHttpGet1] with the logger set, as one equation. *)
Lemma simpleHttpGet1_run (url : string) (s : Process) (l : zapLogger) :
  var_logger s = Some l ->
  room s l 1 ->
  simpleHttpGet1 Get url s
  = (Returns tt, logs l (fetched1 url (Get url)) s).
Proof.
  intros Hl Hroom. unfold simpleHttpGet1, http_Get, read_logger, fetched1.
  unfold pbind at 1 2. destruct (Get url) as [resp|err].
  - cbn [var_logger set_open_bodies]. rewrite Hl.
    erewrite pbind_returns by (apply log_at_run; exact Hroom).
    unfold Body_Close. now rewrite close_after_logs.
  - rewrite Hl. apply log_at_run. exact Hroom.
Qed.

(** [simpleHttpGet2] with the sugared logger set, as one equation. *)
Lemma simpleHttpGet2_run (url : string) (s : Process) (l : zapLogger) :
  var_sugarLogger s = Some l ->
  room s l 2 ->
  simpleHttpGet2 Get url s
  = (Returns tt,
     logs l (fetched2 url (Get url)) (logs l (trying2 url) s)).
Proof.
  intros Hl Hroom. unfold simpleHttpGet2, read_sugarLogger, sugar_logf.
  unfold pbind at 1. rewrite Hl, message_trying.
  erewrite pbind_returns by (apply log_at_run, room_less; exact Hroom).
  fold (trying2 url). apply room_logs with (e := trying2 url) in Hroom.
  pose proof (logs_var_sugarLogger l (trying2 url) s) as Hvar.
  rewrite Hl in Hvar. revert Hroom Hvar.
  generalize (logs l (trying2 url) s). intros s1 Hroom Hvar.
  unfold http_Get, fetched2. unfold pbind at 1 2.
  destruct (Get url) as [resp|err].
  - cbn [var_sugarLogger set_open_bodies]. rewrite Hvar, message_success.
    erewrite pbind_returns by (apply log_at_run; exact Hroom).
    unfold Body_Close. now rewrite close_after_logs.
  - rewrite Hvar, message_error. apply log_at_run. exact Hroom.
Qed.

(** The loop of [mainDemo3], for every bound, on a core without a
    sampler that lets Info through. *)
Lemma test_logs_run (n : nat) (l : zapLogger) :
  Sampling l = None ->
  Enabled (Enab l) zapcore.InfoLevel = true ->
  forall s, var_sugarLogger s = Some l ->
            test_logs n s
            = (Returns tt,
               add_events (repeat (Logged (Out l) test_log_entry) n) s).
Proof.
  intros Hno Hinfo. unfold test_logs.
  induction n as [|n IH]; intros s Hl.
  - cbn. unfold pret. now rewrite add_events_nil.
  - cbn [for_range repeat].
    assert (Hbody : (pbind read_sugarLogger
                       (fun sugarLogger => sugar_Info sugarLogger "test log")) s
                    = (Returns tt,
                       add_events [Logged (Out l) test_log_entry] s)).
    { unfold pbind, read_sugarLogger, sugar_Info. rewrite Hl.
      rewrite log_at_run by (unfold room; now rewrite Hno).
      unfold logs, count_handed. cbn [zapcore.Level_].
      now rewrite Hinfo, Hno. }
    rewrite (pbind_returns _ _ _ _ _ Hbody), IH by exact Hl.
    now rewrite add_events_add_events.
Qed.

(** A threshold that lets Info through lets Error through. *)
Lemma Enabled_Info_Error (enab : zapcore.Level) :
  Enabled enab zapcore.InfoLevel = true ->
  Enabled enab zapcore.ErrorLevel = true.
Proof. destruct enab; cbn; congruence. Qed.

(** What [zap.NewProduction()] leaves: a logger whose sampler has been
    handed nothing. *)
Lemma NewProduction_run (s : Process) :
  exists l s1,
    NewProduction s = (Returns l, s1) /\
    l = zap_NewProduction (next_sampler s) /\
    room s1 l sampler_first /\
    events s1 = events s /\
    open_bodies s1 = open_bodies s /\
    var_sugarLogger s1 = var_sugarLogger s.
Proof.
  eexists _, _. split; [reflexivity|]. split; [reflexivity|].
  split; [|repeat split].
  unfold room. cbn. rewrite Nat.eqb_refl. apply le_n.
Qed.

Lemma InitLogger1_run (s : Process) :
  exists l s1,
    InitLogger1 s = (Returns tt, set_logger (Some l) s1) /\
    l = zap_NewProduction (next_sampler s) /\
    room s1 l sampler_first /\
    events s1 = events s /\
    open_bodies s1 = open_bodies s.
Proof.
  destruct (NewProduction_run s)
    as (l & s1 & Hnew & Hl & Hroom & Hev & Hbodies & _).
  exists l, s1. unfold InitLogger1.
  rewrite (pbind_returns _ _ _ _ _ Hnew). repeat split; assumption.
Qed.

Lemma InitLogger2_run (s : Process) :
  exists l s1,
    InitLogger2 s
    = (Returns tt, set_sugarLogger (Some l) (set_logger (Some l) s1)) /\
    l = zap_NewProduction (next_sampler s) /\
    room s1 l sampler_first /\
    events s1 = events s /\
    open_bodies s1 = open_bodies s.
Proof.
  destruct (NewProduction_run s)
    as (l & s1 & Hnew & Hl & Hroom & Hev & Hbodies & _).
  exists l, s1. unfold InitLogger2.
  rewrite (pbind_returns _ _ _ _ _ Hnew). repeat split; assumption.
Qed.

(** X1: with the package logger set to a logger that lets Info through
    and whose sampler, if it has one, has room for one more entry (it
    has been handed fewer than a hundred since it was built),
    simpleHttpGet1 returns having logged exactly one entry: the Error
    entry with the url and the error when the request fails, the Info
    entry with the status and the url when it succeeds; and it leaves no
    response body open. *)
Theorem simpleHttpGet1_logs_once (url : string) (s : Process)
    (l : zapLogger) :
  var_logger s = Some l ->
  Enabled (Enab l) zapcore.InfoLevel = true ->
  room s l 1 ->
  exists s',
    simpleHttpGet1 Get url s = (Returns tt, s') /\
    events s' = events s ++ [Logged (Out l) (fetched1 url (Get url))] /\
    zapcore.Level_ (fetched1 url (Get url))
    = (match Get url with
       | inl _ => zapcore.InfoLevel
       | inr _ => zapcore.ErrorLevel
       end) /\
    field "url" (zapcore.Fields (fetched1 url (Get url)))
    = Some (zapcore.StringValue url) /\
    open_bodies s' = open_bodies s.
Proof.
  intros Hl Hinfo Hroom. eexists.
  split; [exact (simpleHttpGet1_run _ _ _ Hl Hroom)|].
  pose proof (Enabled_Info_Error _ Hinfo) as Herror.
  rewrite logs_events, logs_open_bodies. unfold let_through, fetched1.
  destruct (Get url) as [resp|err]; cbn [filter zapcore.Level_ map];
    rewrite ?Hinfo, ?Herror; repeat split.
Qed.

(** X2: with the package logger still nil, simpleHttpGet1 makes the
    request and then panics on the nil pointer: nothing is logged, and
    when the request has succeeded its response body stays open. *)
Theorem simpleHttpGet1_nil_logger (url : string) (s : Process) :
  var_logger s = None ->
  exists s',
    simpleHttpGet1 Get url s = (Panics nil_dereference, s') /\
    events s' = events s /\
    open_bodies s'
    = (match Get url with
       | inl _ => S (open_bodies s)
       | inr _ => open_bodies s
       end).
Proof.
  intros Hl. unfold simpleHttpGet1, http_Get, read_logger, log_at, deref.
  unfold pbind. destruct (Get url) as [resp|err].
  - cbn [var_logger set_open_bodies]. rewrite Hl. eexists. repeat split.
  - rewrite Hl. eexists. repeat split.
Qed.

(** X3: with the sugared logger set to a logger whose sampler, if it has
    one, has room for two more entries, simpleHttpGet2 returns and leaves
    no response body open; of its two entries, the Debug one before the
    request and the one of the answer, those the logger's threshold lets
    through are logged, in that order: both at threshold Debug, the
    answer's alone at threshold Info. *)
Theorem simpleHttpGet2_by_threshold (url : string) (s : Process)
    (l : zapLogger) :
  var_sugarLogger s = Some l ->
  room s l 2 ->
  exists s',
    simpleHttpGet2 Get url s = (Returns tt, s') /\
    events s'
    = events s ++ let_through l [trying2 url; fetched2 url (Get url)] /\
    (Enab l = zapcore.DebugLevel ->
     events s' = events s ++ [Logged (Out l) (trying2 url);
                              Logged (Out l) (fetched2 url (Get url))]) /\
    (Enab l = zapcore.InfoLevel ->
     events s' = events s ++ [Logged (Out l) (fetched2 url (Get url))]) /\
    open_bodies s' = open_bodies s.
Proof.
  intros Hl Hroom. eexists.
  split; [exact (simpleHttpGet2_run _ _ _ Hl Hroom)|].
  rewrite !logs_events, !logs_open_bodies, <- app_assoc.
  unfold let_through. cbn [filter map zapcore.Level_ trying2].
  split; [|split; [|split; [|reflexivity]]].
  - destruct (Enabled (Enab l) zapcore.DebugLevel),
      (Enabled (Enab l) (zapcore.Level_ (fetched2 url (Get url))));
      reflexivity.
  - intros ->. unfold fetched2. destruct (Get url); reflexivity.
  - intros ->. unfold fetched2. destruct (Get url); reflexivity.
Qed.

(** X4: with the sugared logger still nil, simpleHttpGet2 panics on the
    nil pointer at its first statement: no request is made and nothing is
    logged. *)
Theorem simpleHttpGet2_nil_sugarLogger (url : string) (s : Process) :
  var_sugarLogger s = None ->
  simpleHttpGet2 Get url s = (Panics nil_dereference, s).
Proof.
  intros Hl. unfold simpleHttpGet2, read_sugarLogger, sugar_logf, log_at.
  unfold pbind, deref. now rewrite Hl.
Qed.

(** X5: mainDemo1 returns from every process, whatever the network
    answers; it logs one entry for each of its two addresses, in order,
    on standard error, syncs after them, and leaves no response body
    open. *)
Theorem mainDemo1_two_entries_then_sync (s : Process) :
  exists s',
    mainDemo1 Get s = (Returns tt, s') /\
    events s'
    = events s
      ++ [Logged Stderr (fetched1 "www.sogou.com" (Get "www.sogou.com"));
          Logged Stderr
            (fetched1 "http://www.sogou.com" (Get "http://www.sogou.com"));
          Synced Stderr] /\
    open_bodies s' = open_bodies s.
Proof.
  destruct (InitLogger1_run s)
    as (l & s1 & Hinit & Hl & Hroom & Hev & Hbodies).
  unfold mainDemo1. rewrite (pbind_returns _ _ _ _ _ Hinit).
  unfold read_logger, defer_call.
  unfold pbind at 1. cbn [var_logger set_logger].
  assert (Hroom2 : room (set_logger (Some l) s1) l 2)
    by (unfold room in *; rewrite Hl in *; cbn in *; unfold sampler_first in *;
        lia).
  erewrite pbind_returns
    by (apply (simpleHttpGet1_run _ _ l);
        [reflexivity | apply room_less, Hroom2]).
  erewrite (simpleHttpGet1_run _ _ l)
    by first [ apply room_logs, Hroom2
             | rewrite ?logs_var_logger; reflexivity ].
  unfold Sync, pbind, deref, happen. eexists. split; [reflexivity|].
  cbn [events open_bodies set_events].
  rewrite !logs_events, !logs_open_bodies. cbn [events open_bodies set_logger].
  rewrite Hev, Hbodies. split; [|reflexivity].
  rewrite <- !app_assoc. f_equal. subst l.
  unfold let_through, fetched1.
  destruct (Get "www.sogou.com"), (Get "http://www.sogou.com"); reflexivity.
Qed.

(** X6: mainDemo2 returns from every process; the production logger it
    builds drops the two Debug entries, so it logs only the entry of each
    answer, in order, on standard error, syncs after them, and leaves no
    response body open. *)
Theorem mainDemo2_debug_dropped (s : Process) :
  exists s',
    mainDemo2 Get s = (Returns tt, s') /\
    events s'
    = events s
      ++ [Logged Stderr (fetched2 "www.google.com" (Get "www.google.com"));
          Logged Stderr
            (fetched2 "http://www.google.com" (Get "http://www.google.com"));
          Synced Stderr] /\
    open_bodies s' = open_bodies s.
Proof.
  destruct (InitLogger2_run s)
    as (l & s1 & Hinit & Hl & Hroom & Hev & Hbodies).
  unfold mainDemo2. rewrite (pbind_returns _ _ _ _ _ Hinit).
  unfold read_sugarLogger, defer_call.
  unfold pbind at 1.
  cbn [var_logger var_sugarLogger set_logger set_sugarLogger].
  set (s2 := set_sugarLogger (Some l) (set_logger (Some l) s1)).
  assert (Hroom4 : room s2 l 4)
    by (unfold room in *; rewrite Hl in *; cbn in *; unfold sampler_first in *;
        lia).
  erewrite pbind_returns
    by (apply (simpleHttpGet2_run _ _ l);
        [reflexivity | do 2 apply room_less; exact Hroom4]).
  erewrite (simpleHttpGet2_run _ _ l)
    by first [ do 2 apply room_logs; exact Hroom4
             | rewrite ?logs_var_sugarLogger; reflexivity ].
  unfold Sync, pbind, deref, happen. eexists. split; [reflexivity|].
  cbn [events open_bodies set_events].
  rewrite !logs_events, !logs_open_bodies.
  cbn [events open_bodies set_logger set_sugarLogger s2].
  rewrite Hev, Hbodies. split; [|reflexivity].
  rewrite <- !app_assoc. f_equal. subst l.
  unfold let_through, fetched2.
  destruct (Get "www.google.com"), (Get "http://www.google.com");
    reflexivity.
Qed.

(** X7: mainDemo3 returns from every process; into the lumberjack file
    it logs the entry "test log" ten thousand times, then for each of its
    two addresses the Debug entry and the entry of the answer, and syncs
    after them: 10004 entries and one sync; no response body stays
    open. *)
Theorem mainDemo3_entries (s : Process) :
  exists s',
    mainDemo3 Get s = (Returns tt, s') /\
    events s'
    = events s
      ++ repeat (Logged getLogWriter test_log_entry) (Z.to_nat 10000)
      ++ [Logged getLogWriter (trying2 "www.sogou.com");
          Logged getLogWriter
            (fetched2 "www.sogou.com" (Get "www.sogou.com"));
          Logged getLogWriter (trying2 "http://www.sogou.com");
          Logged getLogWriter
            (fetched2 "http://www.sogou.com" (Get "http://www.sogou.com"));
          Synced getLogWriter] /\
    length (logged_entries (events s'))
    = (length (logged_entries (events s)) + Z.to_nat 10004)%nat /\
    open_bodies s' = open_bodies s.
Proof.
  set (l := zap_New_AddCaller getEncoder getLogWriter zapcore.DebugLevel).
  unfold mainDemo3, InitLogger3, read_logger, read_sugarLogger, defer_call.
  unfold pbind at 1 2 3 4 5. unfold deref.
  cbn [var_logger var_sugarLogger set_logger set_sugarLogger].
  fold l.
  erewrite pbind_returns
    by (apply (test_logs_run _ l); reflexivity).
  erewrite pbind_returns
    by (apply (simpleHttpGet2_run _ _ l); [reflexivity | exact I]).
  erewrite (simpleHttpGet2_run _ _ l)
    by first [ exact I | rewrite ?logs_var_sugarLogger; reflexivity ].
  unfold Sync, pbind, deref, happen. eexists. split; [reflexivity|].
  assert (Htwo : forall url,
             let_through l [trying2 url]
             ++ let_through l [fetched2 url (Get url)]
             = [Logged getLogWriter (trying2 url);
                Logged getLogWriter (fetched2 url (Get url))]).
  { intros url. unfold let_through, fetched2.
    destruct (Get url); reflexivity. }
  cbn [events open_bodies set_events].
  rewrite !logs_events, !logs_open_bodies.
  cbn [events open_bodies add_events set_events set_logger set_sugarLogger].
  rewrite <- !app_assoc.
  rewrite (app_assoc (let_through l [trying2 "www.sogou.com"])), Htwo.
  rewrite (app_assoc (let_through l [trying2 "http://www.sogou.com"])), Htwo.
  change (Out l) with getLogWriter.
  split; [reflexivity|]. split; [|reflexivity].
  assert (Happ : forall a b, logged_entries (a ++ b)
                             = logged_entries a ++ logged_entries b).
  { induction a as [|[ws e|ws] a IH]; intros b; cbn;
      [reflexivity | now rewrite IH | apply IH]. }
  assert (Hrep : forall n, length (logged_entries
                                     (repeat (Logged getLogWriter
                                                test_log_entry) n)) = n).
  { induction n as [|n IH]; cbn; [reflexivity | now rewrite IH]. }
  rewrite !Happ, !length_app, Hrep. cbn [logged_entries length app]. lia.
Qed.

(** X8: InitLogger3 assigns both package variables, to one logger that
    writes the lumberjack file and drops no level: from every process,
    simpleHttpGet1, which logs through logger, and simpleHttpGet2, which
    logs through sugarLogger, both return after it, and all three of
    their entries, the Debug one included, go to the file. *)
Theorem InitLogger3_sets_both_loggers (url : string) (s : Process) :
  exists s',
    pbind InitLogger3
      (fun _ => pbind (simpleHttpGet1 Get url)
                  (fun _ => simpleHttpGet2 Get url)) s
    = (Returns tt, s') /\
    var_logger s' = var_sugarLogger s' /\
    events s'
    = events s
      ++ [Logged getLogWriter (fetched1 url (Get url));
          Logged getLogWriter (trying2 url);
          Logged getLogWriter (fetched2 url (Get url))] /\
    (forall l lvl, var_logger s' = Some l -> Enabled (Enab l) lvl = true).
Proof.
  set (l := zap_New_AddCaller getEncoder getLogWriter zapcore.DebugLevel).
  unfold InitLogger3, read_logger.
  unfold pbind at 1 2 3 4. unfold deref.
  cbn [var_logger var_sugarLogger set_logger set_sugarLogger].
  fold l.
  erewrite pbind_returns
    by (apply (simpleHttpGet1_run _ _ l); [reflexivity | exact I]).
  erewrite (simpleHttpGet2_run _ _ l)
    by first [ exact I | rewrite ?logs_var_sugarLogger; reflexivity ].
  eexists. split; [reflexivity|].
  rewrite !logs_var_logger, !logs_var_sugarLogger, !logs_events.
  cbn [events var_logger var_sugarLogger set_logger set_sugarLogger].
  split; [reflexivity|]. split.
  - rewrite <- !app_assoc. f_equal. unfold let_through, fetched1, fetched2.
    destruct (Get url); reflexivity.
  - intros l' lvl E. injection E as <-. now destruct lvl.
Qed.

(** X13: with the package logger set, whatever its threshold and whatever
    its sampler decides, simpleHttpGet1 returns, logs at most one entry,
    the one of the answer, and leaves no response body open. *)
Theorem simpleHttpGet1_at_most_one_entry (url : string) (s : Process)
    (l : zapLogger) :
  var_logger s = Some l ->
  exists s',
    simpleHttpGet1 Get url s = (Returns tt, s') /\
    (events s' = events s \/
     events s' = events s ++ [Logged (Out l) (fetched1 url (Get url))]) /\
    open_bodies s' = open_bodies s.
Proof.
  intros Hl. unfold simpleHttpGet1, http_Get, read_logger, fetched1.
  unfold pbind at 1 2. destruct (Get url) as [resp|err];
    cbn [var_logger set_open_bodies]; rewrite Hl;
    unfold log_at, pbind, deref, Body_Close, sampler_Check, happen, pret;
    destruct (Enabled (Enab l) _), (Sampling l) as [id|];
    try match goal with
        | |- context [orb ?a ?b] => destruct (orb a b)
        end;
    eexists; (split; [reflexivity|]); cbn; split; auto.
Qed.

(** In a burst the sampler drops: on the production process whose
    sampler has been handed a hundred entries, the entry of a request is
    not logged. *)
Lemma sampler_drops_in_a_burst :
  simpleHttpGet1 sample_Get "www.sogou.com" busy_process
  = (Returns tt,
     set_handed (fun j => if Nat.eqb j 0 then (handed busy_process j + 1)%nat
                          else handed busy_process j) busy_process).
Proof. reflexivity. Qed.

End DemoProperties.

(** ** More on the chain of [mainDemo4] *)

Section ChainCoverage.

Variable ClientIP : http.Request -> string.
Variable DumpRequest : http.Request -> bool -> dumped.
Variable traceback : World -> string.

Local Abbreviation Logger := (GinLogger ClientIP).
Local Abbreviation Recovery := (GinRecovery DumpRequest traceback).
Local Abbreviation chain := (mainDemo4 ClientIP DumpRequest traceback).

Lemma GinLogger_hangs (c_Next : Go unit) (w w1 : World) :
  c_Next w = (Hangs, w1) -> Logger c_Next w = (Hangs, w1).
Proof.
  intros H. unfold GinLogger, bind, time_Now, get_c. now rewrite H.
Qed.

(** The whole run when the route's handler does not come back. *)
Lemma chain_hangs (k : nat) (handler : Go unit) (w w1 : World) :
  gin.index (c w) = -1 ->
  handler (with_index 2 w) = (Hangs, w1) ->
  c_Next (S (S (S (S (S k))))) (chain handler) w = (Hangs, faulted w1).
Proof.
  intros Hw H.
  pose proof (Next_under_Recovery ClientIP DumpRequest traceback k handler w)
    as H3.
  rewrite H in H3.
  apply (GinRecovery_hangs DumpRequest traceback true) in H3.
  assert (H4 : c_Next (S (S (S (S k)))) (chain handler) (with_index 0 w)
               = (Hangs, faulted w1)).
  { rewrite c_Next_unfold.
    change (with_index _ (with_index 0 w)) with (with_index 1 w).
    rewrite (run_handlers_call _ _ _ 1 (Recovery true)); [|reflexivity..].
    now rewrite H3. }
  apply GinLogger_hangs in H4.
  rewrite c_Next_unfold, Hw. change (int8 (-1 + 1)) with 0.
  rewrite (run_handlers_call _ _ _ 0 Logger); [|reflexivity..].
  now rewrite H4.
Qed.

(** X9: GinLogger holds no recovery of its own: when the rest of the
    chain panics, the panic passes through it with the world as the
    panic left it, and GinLogger logs nothing. *)
Theorem GinLogger_lets_panic_through (c_Next : Go unit) (w w1 : World)
    (v : value) :
  c_Next w = (Panics v, w1) ->
  Logger c_Next w = (Panics v, w1).
Proof.
  intros H. unfold GinLogger, bind, time_Now, get_c. now rewrite H.
Qed.

(** X10: in the chain of mainDemo4, when the route's handler returns the
    two middlewares leave the request, the writer and the error list as
    the handler left them: the run changes the log, by GinLogger's entry,
    and the position in the chain, nothing else. *)
Theorem mainDemo4_clean_run_leaves_context (fuel : nat) (handler : Go unit)
    (w w1 : World) :
  (5 <= fuel)%nat ->
  gin.index (c w) = -1 ->
  handler (with_index 2 w) = (Returns tt, w1) ->
  exists w2,
    c_Next fuel (chain handler) w = (Returns tt, w2) /\
    gin.Request (c w2) = gin.Request (c w1) /\
    gin.Writer (c w2) = gin.Writer (c w1) /\
    gin.Errors (c w2) = gin.Errors (c w1) /\
    clock w2 = clock w1 /\
    logger w2 = logger w1 ++ [request_completed ClientIP w w1].
Proof.
  intros Hfuel Hw H. destruct (enough_fuel _ Hfuel) as [k ->].
  eexists. split; [exact (chain_clean _ _ _ k _ _ _ Hw H)|].
  repeat split.
Qed.

(** X11: in the chain of mainDemo4, when the route's handler raises a
    BrokenConnection fault the run returns with two entries; GinLogger's
    entry, the second, reports the status the handler left, the writer
    being untouched, and its errors field ends with the line of the
    fault, which GinRecovery has put on the error list. *)
Theorem mainDemo4_broken_connection_logged (fuel : nat) (handler : Go unit)
    (w w1 : World) (err : value) :
  (5 <= fuel)%nat ->
  gin.index (c w) = -1 ->
  handler (with_index 2 w) = (Panics err, w1) ->
  classify err = BrokenConnection ->
  exists e w2 fault info,
    err = VErr e /\
    c_Next fuel (chain handler) w = (Returns tt, w2) /\
    logger w2 = logger w1 ++ [fault; info] /\
    zapcore.Message fault = url.Path (http.URL (gin.Request (c w1))) /\
    zapcore.Level_ info = zapcore.InfoLevel /\
    field "status" (zapcore.Fields info)
    = Some (zapcore.IntValue (gin.Status (gin.Writer (c w1)))) /\
    field "errors" (zapcore.Fields info)
    = Some (zapcore.StringValue
              (errorMsgs_String
                 (gin.ByType (gin.Errors (c w1)) gin.ErrorTypePrivate)
               ++ "Error #"
               ++ fmt_02d (Z.of_nat (length (gin.ByType (gin.Errors (c w1))
                                               gin.ErrorTypePrivate)) + 1)
               ++ ": " ++ Error e ++ newline)) /\
    gin.Writer (c w2) = gin.Writer (c w1).
Proof.
  intros Hfuel Hw H Hc. destruct (enough_fuel _ Hfuel) as [k ->].
  unfold classify in Hc. destruct (brokenPipe err) eqn:Hb; [|discriminate].
  destruct (brokenPipe_is_error _ Hb) as [e ->].
  eexists e, _, _, _. split; [reflexivity|].
  split; [exact (chain_broken _ _ _ k _ _ _ _ Hw H Hb)|].
  unfold logged, after_broken, faulted, with_index, request_completed,
    broken_entry.
  cbn [logger c set_index set_Errors gin.Writer gin.Request gin.Errors
       gin.index zapcore.Level_ zapcore.Message zapcore.Fields].
  split; [now rewrite <- app_assoc|].
  do 3 (split; [reflexivity|]). split; [|reflexivity].
  cbn [field zap_Int zap_String zap_Duration zapcore.Key zapcore.Value].
  change (String.eqb "status" "errors") with false.
  change (String.eqb "method" "errors") with false.
  change (String.eqb "path" "errors") with false.
  change (String.eqb "query" "errors") with false.
  change (String.eqb "ip" "errors") with false.
  change (String.eqb "user-agent" "errors") with false.
  change (String.eqb "errors" "errors") with true.
  cbv iota. now rewrite private_errors_after_Error.
Qed.

(** X12: in the chain of mainDemo4, a handler that does not come back
    keeps the whole run from coming back, and neither middleware logs
    anything: the log stays as the handler left it. *)
Theorem mainDemo4_hanging_handler_logs_nothing (fuel : nat)
    (handler : Go unit) (w w1 : World) :
  (5 <= fuel)%nat ->
  gin.index (c w) = -1 ->
  handler (with_index 2 w) = (Hangs, w1) ->
  exists w2,
    c_Next fuel (chain handler) w = (Hangs, w2) /\
    logger w2 = logger w1 /\
    gin.Writer (c w2) = gin.Writer (c w1).
Proof.
  intros Hfuel Hw H. destruct (enough_fuel _ Hfuel) as [k ->].
  eexists. split; [exact (chain_hangs k _ _ _ Hw H)|]. split; reflexivity.
Qed.

End ChainCoverage.

(** ** The further theorems at sample inputs *)

Lemma simpleHttpGet1_logs_once_witness :
  var_logger production_process = Some (zap_NewProduction 0) /\
  Enabled (Enab (zap_NewProduction 0)) zapcore.InfoLevel = true /\
  room production_process (zap_NewProduction 0) 1 /\
  exists s',
    simpleHttpGet1 sample_Get "www.sogou.com" production_process
    = (Returns tt, s') /\
    events s'
    = [Logged Stderr
         {| zapcore.Level_ := zapcore.ErrorLevel;
            zapcore.Message := "Error fetching url..";
            zapcore.Fields :=
              [zap_String "url" "www.sogou.com";
               zap_Error (errorString "unsupported protocol scheme")] |}] /\
    open_bodies s' = 0%nat.
Proof.
  assert (Hroom : room production_process (zap_NewProduction 0) 1)
    by (unfold room, sampler_first; cbn; lia).
  split; [reflexivity|]. split; [reflexivity|]. split; [exact Hroom|].
  destruct (simpleHttpGet1_logs_once sample_Get "www.sogou.com"
              production_process (zap_NewProduction 0) eq_refl eq_refl Hroom)
    as (s' & Hrun & Hev & _ & _ & Hbodies).
  exists s'. repeat split; assumption.
Defined.

Lemma simpleHttpGet1_at_most_one_entry_witness :
  var_logger busy_process = Some (zap_NewProduction 0) /\
  exists s',
    simpleHttpGet1 sample_Get "www.sogou.com" busy_process = (Returns tt, s') /\
    events s' = [] /\
    open_bodies s' = 0%nat.
Proof.
  split; [reflexivity|].
  destruct (simpleHttpGet1_at_most_one_entry sample_Get "www.sogou.com"
              busy_process (zap_NewProduction 0) eq_refl)
    as (s' & Hrun & _ & Hbodies).
  exists s'. split; [exact Hrun|]. split; [|exact Hbodies].
  assert (Hs : Some s' = Some (snd (simpleHttpGet1 sample_Get "www.sogou.com"
                                      busy_process)))
    by (now rewrite Hrun).
  injection Hs as ->. reflexivity.
Defined.

Lemma simpleHttpGet1_nil_logger_witness :
  var_logger started = None /\
  exists s',
    simpleHttpGet1 sample_Get "http://www.sogou.com" started
    = (Panics nil_dereference, s') /\
    events s' = [] /\
    open_bodies s' = 1%nat.
Proof.
  split; [reflexivity|].
  destruct (simpleHttpGet1_nil_logger sample_Get "http://www.sogou.com"
              started eq_refl)
    as (s' & Hrun & Hev & Hbodies).
  exists s'. repeat split; assumption.
Defined.

Lemma simpleHttpGet2_by_threshold_witness :
  var_sugarLogger file_process
  = Some (zap_New_AddCaller getEncoder getLogWriter zapcore.DebugLevel) /\
  room file_process
    (zap_New_AddCaller getEncoder getLogWriter zapcore.DebugLevel) 2 /\
  exists s',
    simpleHttpGet2 sample_Get "http://www.sogou.com" file_process
    = (Returns tt, s') /\
    events s'
    = [Logged getLogWriter (trying2 "http://www.sogou.com");
       Logged getLogWriter
         {| zapcore.Level_ := zapcore.InfoLevel;
            zapcore.Message :=
              "Success! statusCode = 200 OK for URL http://www.sogou.com";
            zapcore.Fields := [] |}] /\
    open_bodies s' = 0%nat.
Proof.
  split; [reflexivity|]. split; [exact I|].
  destruct (simpleHttpGet2_by_threshold sample_Get "http://www.sogou.com"
              file_process _ eq_refl I)
    as (s' & Hrun & _ & Hdebug & _ & Hbodies).
  exists s'. split; [exact Hrun|]. split; [exact (Hdebug eq_refl)|].
  exact Hbodies.
Defined.

Lemma simpleHttpGet2_nil_sugarLogger_witness :
  var_sugarLogger production_process = None /\
  simpleHttpGet2 sample_Get "http://www.sogou.com" production_process
  = (Panics nil_dereference, production_process).
Proof.
  split; [reflexivity|].
  exact (simpleHttpGet2_nil_sugarLogger sample_Get "http://www.sogou.com"
           production_process eq_refl).
Defined.

Lemma GinLogger_lets_panic_through_witness :
  boom sample_world = (Panics (VStr "boom"), snd (boom sample_world)) /\
  GinLogger remote_addr boom sample_world
  = (Panics (VStr "boom"), snd (boom sample_world)) /\
  logger (snd (boom sample_world)) = [].
Proof.
  split; [reflexivity|]. split; [|reflexivity].
  exact (GinLogger_lets_panic_through remote_addr boom sample_world
           (snd (boom sample_world)) (VStr "boom") eq_refl).
Defined.

Lemma mainDemo4_clean_run_leaves_context_witness :
  (5 <= 5)%nat /\
  gin.index (c sample_world) = -1 /\
  hello (with_index 2 sample_world)
  = (Returns tt, snd (hello (with_index 2 sample_world))) /\
  exists w2,
    c_Next 5 (mainDemo4 remote_addr request_line one_goroutine hello)
      sample_world = (Returns tt, w2) /\
    gin.Writer (c w2)
    = {| gin.ResponseWriter := [http.StatusLine 200; http.Body "hello!"];
         gin.size := 6; gin.status := 200 |} /\
    gin.Errors (c w2) = [].
Proof.
  split; [apply le_n|]. do 2 (split; [reflexivity|]).
  destruct (mainDemo4_clean_run_leaves_context remote_addr request_line
              one_goroutine 5 hello sample_world
              (snd (hello (with_index 2 sample_world)))
              (le_n 5) eq_refl eq_refl)
    as (w2 & Hrun & _ & Hwriter & Herrors & _).
  exists w2. repeat split; assumption.
Defined.

Lemma mainDemo4_broken_connection_logged_witness :
  (5 <= 5)%nat /\
  gin.index (c sample_world) = -1 /\
  write_fails (with_index 2 sample_world)
  = (Panics write_broken_pipe, with_index 2 sample_world) /\
  classify write_broken_pipe = BrokenConnection /\
  exists w2 fault info,
    c_Next 5 (mainDemo4 remote_addr request_line one_goroutine write_fails)
      sample_world = (Returns tt, w2) /\
    logger w2 = [fault; info] /\
    field "status" (zapcore.Fields info) = Some (zapcore.IntValue 200) /\
    gin.ResponseWriter (gin.Writer (c w2)) = [].
Proof.
  split; [apply le_n|]. do 3 (split; [reflexivity|]).
  destruct (mainDemo4_broken_connection_logged remote_addr request_line
              one_goroutine 5 write_fails sample_world
              (with_index 2 sample_world) write_broken_pipe
              (le_n 5) eq_refl eq_refl eq_refl)
    as (e & w2 & fault & info & _ & Hrun & Hlog & _ & _ & Hstatus & _
        & Hwriter).
  exists w2, fault, info. split; [exact Hrun|]. split; [exact Hlog|].
  split; [exact Hstatus|]. now rewrite Hwriter.
Defined.

Lemma mainDemo4_hanging_handler_logs_nothing_witness :
  (5 <= 5)%nat /\
  gin.index (c sample_world) = -1 /\
  hang_forever (with_index 2 sample_world)
  = (Hangs, with_index 2 sample_world) /\
  exists w2,
    c_Next 5 (mainDemo4 remote_addr request_line one_goroutine hang_forever)
      sample_world = (Hangs, w2) /\
    logger w2 = [].
Proof.
  split; [apply le_n|]. do 2 (split; [reflexivity|]).
  destruct (mainDemo4_hanging_handler_logs_nothing remote_addr request_line
              one_goroutine 5 hang_forever sample_world
              (with_index 2 sample_world) (le_n 5) eq_refl eq_refl)
    as (w2 & Hrun & Hlog & _).
  exists w2. split; assumption.
Defined.
